(** * computeSales.py: reconciliation of a sales ledger against a price catalog

    A shallow embedding of [src/computeSales.py].  The values handled by the
    program are the ones [json.load] produces; the operators the program
    applies to them ([==], truth testing, [*], [+], [round], [dict.get],
    iteration) follow CPython on those values.  An uncaught exception is an
    explicit [Raise] outcome, and the list [errores], which the program
    mutates in place, is threaded as state. *)

From Stdlib Require Import ZArith String Ascii Floats Lia.
From stdpp Require Import base option list gmap strings pretty.

Local Open Scope Z_scope.

Local Set Warnings "-register-all".

(** ** Values decoded from JSON *)

Inductive pyval : Type :=
| VNone
| VBool (b : bool)
| VInt (z : Z)
| VFloat (f : float)
| VStr (s : string)
| VList (l : list pyval)
| VDict (d : gmap string pyval).

(** Exceptions the program can leave uncaught; [SystemExit] is what
    [sys.exit] raises. *)
Inductive pyexn : Type :=
| TypeError
| AttributeError
| OverflowError
| SystemExit (code : Z).

Inductive outcome (A : Type) : Type :=
| Ret (a : A)
| Raise (e : pyexn).

Arguments Ret {A} a.
Arguments Raise {A} e.

Definition obind {A B : Type} (o : outcome A) (k : A -> outcome B) : outcome B :=
  match o with
  | Ret a => k a
  | Raise e => Raise e
  end.

(** A record as the program sees it: a decoded JSON object. *)
Abbreviation registro := (gmap string pyval).

Definition lista (rs : list registro) : pyval := VList (VDict <$> rs).

(** ** Numbers *)

Inductive num : Type :=
| NInt (z : Z)
| NFloat (f : float).

(** [bool] is a subclass of [int]: [True] counts as 1 in arithmetic and in
    comparisons. *)
Definition as_num (v : pyval) : option num :=
  match v with
  | VBool b => Some (NInt (Z.b2z b))
  | VInt z => Some (NInt z)
  | VFloat f => Some (NFloat f)
  | _ => None
  end.

(** First integer magnitude whose nearest double is infinite: halfway
    between the largest double, 2^1024 - 2^971, and 2^1024. *)
Definition float_limit : Z := 2 ^ 1024 - 2 ^ 970.

(** Conversion of an [int] operand to [float] (round to nearest, ties to
    even); CPython raises [OverflowError] when the result is not finite. *)
Definition int_to_float (z : Z) : outcome float :=
  if Z.abs z <? float_limit
  then Ret (SF2Prim (binary_normalize prec emax z 0 false))
  else Raise OverflowError.

Definition num_to_float (n : num) : outcome float :=
  match n with
  | NInt z => int_to_float z
  | NFloat f => Ret f
  end.

(** [f == z] for a float and an int compares the exact values. *)
Definition float_eq_int (f : float) (z : Z) : bool :=
  match Prim2SF f with
  | S754_zero _ => Z.eqb z 0
  | S754_finite s m e =>
      let v := if s then Z.neg m else Z.pos m in
      if 0 <=? e then Z.eqb z (v * 2 ^ e) else Z.eqb (z * 2 ^ (- e)) v
  | _ => false
  end.

Definition num_eq (a b : num) : bool :=
  match a, b with
  | NInt x, NInt y => Z.eqb x y
  | NFloat x, NFloat y => PrimFloat.eqb x y
  | NInt x, NFloat y => float_eq_int y x
  | NFloat x, NInt y => float_eq_int x y
  end.

Definition num_mul (a b : num) : outcome pyval :=
  match a, b with
  | NInt x, NInt y => Ret (VInt (x * y))
  | _, _ =>
      obind (num_to_float a) (fun x =>
      obind (num_to_float b) (fun y => Ret (VFloat (PrimFloat.mul x y))))
  end.

Definition num_add (a b : num) : outcome pyval :=
  match a, b with
  | NInt x, NInt y => Ret (VInt (x + y))
  | _, _ =>
      obind (num_to_float a) (fun x =>
      obind (num_to_float b) (fun y => Ret (VFloat (PrimFloat.add x y))))
  end.

(** ** Operators on values *)

(** Truth value, as tested by [if] and [and]. *)
Definition py_truthy (v : pyval) : bool :=
  match v with
  | VNone => false
  | VBool b => b
  | VInt z => negb (Z.eqb z 0)
  | VFloat f => negb (PrimFloat.eqb f 0)
  | VStr s => negb (bool_decide (s = EmptyString))
  | VList l => negb (bool_decide (l = []))
  | VDict d => negb (Nat.eqb (size d) 0)
  end.

Definition is_none (v : pyval) : bool :=
  match v with
  | VNone => true
  | _ => false
  end.

(** A float that differs from itself.  [json.load] returns one shared
    object for every NaN of every document, so among decoded values two
    NaN are the same object. *)
Definition es_nan (v : pyval) : bool :=
  match v with
  | VFloat f => negb (PrimFloat.eqb f f)
  | _ => false
  end.

(** The operator [==] on values decoded by [json.load].  Numbers compare by
    value across [bool], [int] and [float]; strings compare character by
    character; lists element-wise; dictionaries key-wise.  Inside a list or
    a dictionary CPython tests identity before equality, which makes a
    difference for NaN only: there two NaN count as equal, while [NaN ==
    NaN] itself is false. *)
Fixpoint py_eq (a b : pyval) : bool :=
  match a, b with
  | VNone, VNone => true
  | VStr s, VStr t => bool_decide (s = t)
  | VList xs, VList ys =>
      (fix go (xs ys : list pyval) : bool :=
         match xs, ys with
         | [], [] => true
         | x :: xs', y :: ys' =>
             ((es_nan x && es_nan y) || py_eq x y) && go xs' ys'
         | _, _ => false
         end) xs ys
  | VDict d1, VDict d2 =>
      Nat.eqb (size d1) (size d2) &&
      map_fold (fun k v acc =>
                  acc && match d2 !! k with
                         | Some w => (es_nan v && es_nan w) || py_eq v w
                         | None => false
                         end) true d1
  | _, _ =>
      match as_num a, as_num b with
      | Some x, Some y => num_eq x y
      | _, _ => false
      end
  end.

Fixpoint repetir (n : nat) (s : string) : string :=
  match n with
  | O => EmptyString
  | S n' => s +:+ repetir n' s
  end.

Definition as_int (v : pyval) : option Z :=
  match v with
  | VBool b => Some (Z.b2z b)
  | VInt z => Some z
  | _ => None
  end.

(** The count of a repetition must fit the index type ([Py_ssize_t], 64
    bits here); otherwise CPython raises [OverflowError], whatever the sign.
    A count that is not positive gives the empty sequence. *)
Definition repeticiones (n : Z) : outcome nat :=
  if (- 2 ^ 63 <=? n) && (n <=? 2 ^ 63 - 1) then Ret (Z.to_nat n)
  else Raise OverflowError.

(** The operator [*]: arithmetic on numbers, repetition of a string or a
    list by an integer, [TypeError] for every other pair of operands.
    Memory is not bounded in the model: a repetition whose count fits the
    index type is carried out, however long the result. *)
Definition py_mul (a b : pyval) : outcome pyval :=
  match a, b with
  | VStr s, _ | _, VStr s =>
      match as_int a, as_int b with
      | None, Some n | Some n, None =>
          obind (repeticiones n) (fun k => Ret (VStr (repetir k s)))
      | _, _ => Raise TypeError
      end
  | VList l, _ | _, VList l =>
      match as_int a, as_int b with
      | None, Some n | Some n, None =>
          obind (repeticiones n) (fun k => Ret (VList (mjoin (replicate k l))))
      | _, _ => Raise TypeError
      end
  | _, _ =>
      match as_num a, as_num b with
      | Some x, Some y => num_mul x y
      | _, _ => Raise TypeError
      end
  end.

(** The operator [+] (and [+=] on a number): arithmetic on numbers,
    concatenation of two strings or two lists, [TypeError] otherwise. *)
Definition py_add (a b : pyval) : outcome pyval :=
  match as_num a, as_num b with
  | Some x, Some y => num_add x y
  | _, _ =>
      match a, b with
      | VStr s, VStr t => Ret (VStr (s +:+ t))
      | VList l, VList k => Ret (VList (l ++ k))
      | _, _ => Raise TypeError
      end
  end.

(** [o.get(key)]: [None] for a missing key; only dictionaries have the
    method. *)
Definition py_get (o : pyval) (key : string) : outcome pyval :=
  match o with
  | VDict d => Ret (default VNone (d !! key))
  | _ => Raise AttributeError
  end.

(** The items a [for] loop visits: the elements of a list, the characters
    of a string, the keys of a dictionary; other values are not iterable. *)
Definition py_iter (v : pyval) : outcome (list pyval) :=
  match v with
  | VList l => Ret l
  | VStr s => Ret ((fun c => VStr (String c EmptyString)) <$> list_ascii_of_string s)
  | VDict d => Ret ((fun kv => VStr kv.1) <$> map_to_list d)
  | _ => Raise TypeError
  end.

(** [round(v, 2)]: an [int] is returned unchanged (a [bool] as the [int] it
    is), a [float] is rounded by the runtime, other values have no
    [__round__]. *)
Definition py_round2 (round_float : float -> float) (v : pyval) : outcome pyval :=
  match v with
  | VBool b => Ret (VInt (Z.b2z b))
  | VInt z => Ret (VInt z)
  | VFloat f => Ret (VFloat (round_float f))
  | _ => Raise TypeError
  end.

(** ** Statements with state and exceptions *)

Definition M (S A : Type) : Type := S -> outcome A * S.

Definition st_ret {S A : Type} (a : A) : M S A := fun s => (Ret a, s).

Definition st_bind {S A B : Type} (m : M S A) (k : A -> M S B) : M S B :=
  fun s =>
    match m s with
    | (Ret a, s') => k a s'
    | (Raise e, s') => (Raise e, s')
    end.

Definition st_lift {S A : Type} (o : outcome A) : M S A := fun s => (o, s).

Definition st_raise {S A : Type} (e : pyexn) : M S A := fun s => (Raise e, s).

Notation "'let!' x ':=' m 'in' k" := (st_bind m (fun x => k))
  (at level 10, x name, m at level 100, k at level 200, only parsing).
Notation "m ';;' k" := (st_bind m (fun _ => k))
  (at level 100, k at level 200, right associativity, only parsing).

(** [for x in xs: body(x)] *)
Fixpoint st_for {S A : Type} (xs : list A) (body : A -> M S unit) : M S unit :=
  match xs with
  | [] => st_ret tt
  | x :: rest => body x ;; st_for rest body
  end.

(** A [for] loop that updates one local variable. *)
Fixpoint st_fold {S A V : Type} (xs : list A) (body : A -> V -> M S V) (v : V)
  : M S V :=
  match xs with
  | [] => st_ret v
  | x :: rest => let! v' := body x v in st_fold rest body v'
  end.

(** ** The parts of the Python runtime the program calls but does not define *)

Class PyRuntime : Type := {
  (** [str(v)] for a value that is not a string *)
  py_repr : pyval -> string;
  (** [format(v, spec)], the conversion behind [{v:spec}] *)
  py_format : pyval -> string -> outcome string;
  (** [round(x, 2)] for a float *)
  round_float : float -> float
}.

Definition nl : string := String (ascii_of_nat 10) EmptyString.

Section Program.

Context {RT : PyRuntime}.

(** What an f-string puts in place of [{v}]. *)
Definition py_str (v : pyval) : string :=
  match v with
  | VStr s => s
  | _ => py_repr v
  end.

(** ** [calcular_costo_total] *)

(** The comprehension
    [[product for product in catalogo if product.get('title') == producto]]
    over the items of the catalog, in catalog order. *)
Fixpoint filtrar (producto : pyval) (items : list pyval) : outcome (list pyval) :=
  match items with
  | [] => Ret []
  | product :: resto =>
      obind (py_get product "title") (fun title =>
      obind (filtrar producto resto) (fun cruce =>
      Ret (if py_eq title producto then product :: cruce else cruce)))
  end.

Definition cruzar (catalogo producto : pyval) : outcome (list pyval) :=
  obind (py_iter catalogo) (filtrar producto).

(** [errores.append(msg)] *)
Definition append (msg : string) : M (list string) unit :=
  fun errores => (Ret tt, errores ++ [msg]).

Definition msg_sin_precio (producto : pyval) : string :=
  "No existe precio para '" +:+ py_str producto +:+ "'".

Definition msg_no_encontrado (producto : pyval) : string :=
  "No se encontró el producto '" +:+ py_str producto +:+ "'".

Definition msg_sin_campo : string :=
  "No se encontró el campo 'product' o 'Quantity'.".

(** The body of the loop over [ventas], lines 58 to 78; [costo_total] is the
    local it updates. *)
Definition procesar (catalogo item costo_total : pyval) : M (list string) pyval :=
  let! producto := st_lift (py_get item "Product") in
  let! quantity := st_lift (py_get item "Quantity") in
  if py_truthy producto && py_truthy quantity then
    let! cruce := st_lift (cruzar catalogo producto) in
    match cruce with
    | coincidente :: _ =>
        let! price := st_lift (py_get coincidente "price") in
        if negb (is_none price) then
          let! subtotal := st_lift (py_mul quantity price) in
          st_lift (py_add costo_total subtotal)
        else
          append (msg_sin_precio producto) ;; st_ret costo_total
    | [] =>
        append (msg_no_encontrado producto) ;; st_ret costo_total
    end
  else
    append msg_sin_campo ;; st_ret costo_total.

(** [calcular_costo_total(catalogo, ventas, errores)]: the list [errores] is
    the state, so the third argument is the list as the caller passes it and
    the second component of the result is the list as the call leaves it. *)
Definition calcular_costo_total (catalogo ventas : pyval) : M (list string) pyval :=
  if is_none catalogo || is_none ventas then st_ret VNone
  else
    let! items := st_lift (py_iter ventas) in
    st_fold items (procesar catalogo) (VInt 0).

(** ** The world outside the process *)

(** What [open(ruta)] followed by [json.load] does on an existing file. *)
Inductive lectura : Type :=
| Decodifica (data : pyval)
| FallaJSON (e : string)
| FallaOtra (e : string).

Record world : Type := {
  (** the files as the process finds them when it loads them: a path
      absent from the map does not exist.  The program reads before it
      writes, so this field is never consulted after a write; it does not
      say what a later read of a written path would return *)
  w_archivos : gmap string lectura;
  (** the lines printed so far *)
  w_stdout : list string;
  (** the files written by the process, with their content *)
  w_escritos : gmap string string;
  (** the coming readings of [time.time()] *)
  w_reloj : list float
}.

Definition print (linea : string) : M world unit :=
  fun w => (Ret tt, {| w_archivos := w_archivos w;
                       w_stdout := w_stdout w ++ [linea];
                       w_escritos := w_escritos w;
                       w_reloj := w_reloj w |}).

Definition time_time : M world float :=
  fun w => (Ret (hd 0%float (w_reloj w)),
            {| w_archivos := w_archivos w;
               w_stdout := w_stdout w;
               w_escritos := w_escritos w;
               w_reloj := tl (w_reloj w) |}).

(** [open(ruta, 'w')]: the file is created, or emptied if it was there.
    Failures of the file system on writing are outside the model, and the
    effect on [w_archivos] of writing over a path that was an input is not
    recorded (see [world]). *)
Definition open_w (ruta : string) : M world unit :=
  fun w => (Ret tt, {| w_archivos := w_archivos w;
                       w_stdout := w_stdout w;
                       w_escritos := <[ruta := EmptyString]> (w_escritos w);
                       w_reloj := w_reloj w |}).

(** [file.write(texto)] on the file opened at [ruta].  Every text is taken
    to be encodable: a string with a lone surrogate, which the strict UTF-8
    encoder of the report refuses with [UnicodeEncodeError], is outside the
    model, as it is for [print]. *)
Definition write (ruta texto : string) : M world unit :=
  fun w => (Ret tt, {| w_archivos := w_archivos w;
                       w_stdout := w_stdout w;
                       w_escritos :=
                         <[ruta := default EmptyString (w_escritos w !! ruta) +:+ texto]>
                           (w_escritos w);
                       w_reloj := w_reloj w |}).

(** ** [leer_archivo_json] *)

Definition leer_archivo_json (ruta_archivo : string) : M world pyval :=
  fun w =>
    match w_archivos w !! ruta_archivo with
    | Some (Decodifica data) => st_ret data w
    | None =>
        (print ("Archivo '" +:+ ruta_archivo +:+ "' no encontrado en la ruta indicada.") ;;
         st_ret VNone) w
    | Some (FallaJSON e) =>
        (print ("Error en la decodificación con el archivo JSON: " +:+ e) ;;
         st_ret VNone) w
    | Some (FallaOtra e) =>
        (print ("No se pudo leer el contenido del archivo JSON: " +:+ e) ;;
         st_ret VNone) w
    end.

(** ** [escribir_archivo] and the table printed by [main] *)

Definition SalesResults : string := "SalesResults.txt".

Definition titulos : string :=
  "Producto" +:+ repetir 32 " " +:+ " " +:+ " Cantidad " +:+ " " +:+
  "Precio Unitario" +:+ " " +:+ "   Subtotal    ".

Definition raya : string := repetir 80 "-".

(** Lines 108 to 117 and, again, lines 157 to 166: what the two table loops
    compute for [item] before they format it.  [None] when no catalog title
    equals the product; otherwise product, quantity, price and subtotal. *)
Definition renglon (catalogo item : pyval)
  : outcome (option (pyval * pyval * pyval * pyval)) :=
  obind (py_get item "Product") (fun producto =>
  obind (py_get item "Quantity") (fun quantity =>
  obind (cruzar catalogo producto) (fun cruce =>
  match cruce with
  | coincidente :: _ =>
      obind (py_get coincidente "price") (fun price =>
      obind (py_mul quantity price) (fun bruto =>
      obind (py_round2 round_float bruto) (fun subtotal =>
      Ret (Some (producto, quantity, price, subtotal)))))
  | [] => Ret None
  end))).

(** Lines 118 and 119. *)
Definition fila_archivo (producto quantity price subtotal : pyval) : outcome string :=
  obind (py_format producto "<40") (fun c1 =>
  obind (py_format quantity "^10") (fun c2 =>
  obind (py_format price "^15") (fun c3 =>
  obind (py_format subtotal "^15") (fun c4 =>
  Ret (c1 +:+ " " +:+ c2 +:+ c3 +:+ " " +:+ c4 +:+ nl))))).

(** Lines 168 and 169. *)
Definition fila_consola (producto quantity price subtotal : pyval) : outcome string :=
  obind (py_format producto "<40") (fun c1 =>
  obind (py_format quantity "^10") (fun c2 =>
  obind (py_format price "^15") (fun c3 =>
  obind (py_format subtotal "^15") (fun c4 =>
  Ret (c1 +:+ " " +:+ c2 +:+ " " +:+ c3 +:+ " " +:+ c4))))).

(** The body of the loop of lines 107 to 119. *)
Definition escribir_fila (catalogo item : pyval) : M world unit :=
  let! r := st_lift (renglon catalogo item) in
  match r with
  | Some (producto, quantity, price, subtotal) =>
      let! texto := st_lift (fila_archivo producto quantity price subtotal) in
      write SalesResults texto
  | None => st_ret tt
  end.

Definition escribir_archivo (costo_form : string) (tiempo_transcurrido : pyval)
    (ventas catalogo : pyval) (errores : list string) : M world unit :=
  open_w SalesResults ;;
  (if bool_decide (0 < length errores)%nat then
     write SalesResults ("Se presentaron errores:" +:+ nl) ;;
     st_for errores (fun error => write SalesResults ("* " +:+ error +:+ nl))
   else st_ret tt) ;;
  write SalesResults (nl +:+ "Resultado de las ventas:") ;;
  write SalesResults (nl +:+ titulos +:+ " " +:+ nl) ;;
  write SalesResults (raya +:+ nl) ;;
  let! items := st_lift (py_iter ventas) in
  st_for items (escribir_fila catalogo) ;;
  write SalesResults (raya +:+ nl) ;;
  write SalesResults ("* Costo Total: " +:+ costo_form +:+ nl) ;;
  write SalesResults
    ("* Tiempo Transcurrido: " +:+ py_str tiempo_transcurrido +:+ " segundos" +:+ nl).

(** ** [main] *)

(** The body of the loop of lines 156 to 170. *)
Definition imprimir_fila (catalogo item : pyval) : M world unit :=
  let! r := st_lift (renglon catalogo item) in
  match r with
  | Some (producto, quantity, price, subtotal) =>
      let! texto := st_lift (fila_consola producto quantity price subtotal) in
      print texto
  | None => st_ret tt
  end.

(** Line 140: [round(calcular_costo_total(catalogo, ventas, errores), 2)],
    with [errores] the state. *)
Definition costo_redondeado (catalogo ventas : pyval) : M (list string) pyval :=
  let! bruto := calcular_costo_total catalogo ventas in
  st_lift (py_round2 round_float bruto).

Definition uso : string :=
  "Utilice: !python computeSales.py Catalogo.json Ventas.json".

(** [main()], with [sys.argv] as argument. *)
Definition main (argv : list string) : M world unit :=
  (if negb (Nat.eqb (length argv) 3) then print uso ;; st_raise (SystemExit 1)
   else st_ret tt) ;;
  let ruta_archivo1 := nth 1 argv EmptyString in
  let ruta_archivo2 := nth 2 argv EmptyString in
  let! catalogo := leer_archivo_json ruta_archivo1 in
  let! ventas := leer_archivo_json ruta_archivo2 in
  if negb (is_none catalogo) && negb (is_none ventas) then
    let! hora_inicio := time_time in
    let (r, errores) := costo_redondeado catalogo ventas [] in
    let! costo_total := st_lift r in
    let! hora_fin := time_time in
    let tiempo_transcurrido := VFloat (PrimFloat.sub hora_fin hora_inicio) in
    (if bool_decide (0 < length errores)%nat then
       print (nl +:+ "Se presentaron los siguientes errores:") ;;
       st_for errores (fun error => print ("* " +:+ error))
     else st_ret tt) ;;
    if negb (is_none costo_total) then
      let! importe := st_lift (py_format costo_total ",.2f") in
      let costo_form := "$" +:+ importe in
      print (nl +:+ "Resultado de las ventas:") ;;
      print (nl +:+ titulos) ;;
      print raya ;;
      let! items := st_lift (py_iter ventas) in
      st_for items (imprimir_fila catalogo) ;;
      print raya ;;
      print ("* Costo Total: " +:+ costo_form) ;;
      print ("* Tiempo Transcurrido: " +:+ py_str tiempo_transcurrido +:+ " segundos") ;;
      escribir_archivo costo_form tiempo_transcurrido ventas catalogo errores
    else st_ret tt
  else st_ret tt.

End Program.

(** The exit status of [python computeSales.py ...]: 0 when [main] returns,
    the code given to [sys.exit], 1 for any other uncaught exception. *)
Definition exit_status (r : outcome unit) : Z :=
  match r with
  | Ret _ => 0
  | Raise (SystemExit code) => code
  | Raise _ => 1
  end.

(** ** One iteration and one call, read as relations

    Each constructor of [paso] is one path through the loop body of
    [calcular_costo_total]; [paso catalogo item costo errores r errores']
    says that the iteration on [item], entered with the total [costo] and
    the list [errores], ends with [r] (the new total, or the exception that
    leaves the function) and the list [errores']. *)

Section Relations.

Context {RT : PyRuntime}.

Inductive paso (catalogo item costo_total : pyval) (errores : list string)
  : outcome pyval -> list string -> Prop :=
| paso_sin_get e :
    py_get item "Product" = Raise e ->
    paso catalogo item costo_total errores (Raise e) errores
| paso_sin_campo producto quantity :
    py_get item "Product" = Ret producto ->
    py_get item "Quantity" = Ret quantity ->
    py_truthy producto && py_truthy quantity = false ->
    paso catalogo item costo_total errores
         (Ret costo_total) (errores ++ [msg_sin_campo])
| paso_cruce_falla producto quantity e :
    py_get item "Product" = Ret producto ->
    py_get item "Quantity" = Ret quantity ->
    py_truthy producto && py_truthy quantity = true ->
    cruzar catalogo producto = Raise e ->
    paso catalogo item costo_total errores (Raise e) errores
| paso_no_encontrado producto quantity :
    py_get item "Product" = Ret producto ->
    py_get item "Quantity" = Ret quantity ->
    py_truthy producto && py_truthy quantity = true ->
    cruzar catalogo producto = Ret [] ->
    paso catalogo item costo_total errores
         (Ret costo_total) (errores ++ [msg_no_encontrado producto])
| paso_sin_precio producto quantity coincidente resto :
    py_get item "Product" = Ret producto ->
    py_get item "Quantity" = Ret quantity ->
    py_truthy producto && py_truthy quantity = true ->
    cruzar catalogo producto = Ret (coincidente :: resto) ->
    py_get coincidente "price" = Ret VNone ->
    paso catalogo item costo_total errores
         (Ret costo_total) (errores ++ [msg_sin_precio producto])
| paso_producto_falla producto quantity coincidente resto price e :
    py_get item "Product" = Ret producto ->
    py_get item "Quantity" = Ret quantity ->
    py_truthy producto && py_truthy quantity = true ->
    cruzar catalogo producto = Ret (coincidente :: resto) ->
    py_get coincidente "price" = Ret price ->
    price <> VNone ->
    py_mul quantity price = Raise e ->
    paso catalogo item costo_total errores (Raise e) errores
| paso_suma producto quantity coincidente resto price subtotal :
    py_get item "Product" = Ret producto ->
    py_get item "Quantity" = Ret quantity ->
    py_truthy producto && py_truthy quantity = true ->
    cruzar catalogo producto = Ret (coincidente :: resto) ->
    py_get coincidente "price" = Ret price ->
    price <> VNone ->
    py_mul quantity price = Ret subtotal ->
    paso catalogo item costo_total errores
         (py_add costo_total subtotal) errores.

Inductive bucle (catalogo : pyval)
  : list pyval -> pyval -> list string -> outcome pyval -> list string -> Prop :=
| bucle_fin costo errores :
    bucle catalogo [] costo errores (Ret costo) errores
| bucle_sigue item resto costo errores costo' errores' r errores'' :
    paso catalogo item costo errores (Ret costo') errores' ->
    bucle catalogo resto costo' errores' r errores'' ->
    bucle catalogo (item :: resto) costo errores r errores''
| bucle_corta item resto costo errores e errores' :
    paso catalogo item costo errores (Raise e) errores' ->
    bucle catalogo (item :: resto) costo errores (Raise e) errores'.

(** [ejecuta catalogo ventas errores r errores']: a call of
    [calcular_costo_total] on these arguments ends with [r] and leaves the
    list as [errores']. *)
Inductive ejecuta (catalogo ventas : pyval) (errores : list string)
  : outcome pyval -> list string -> Prop :=
| ejecuta_none :
    catalogo = VNone \/ ventas = VNone ->
    ejecuta catalogo ventas errores (Ret VNone) errores
| ejecuta_no_iterable e :
    catalogo <> VNone -> ventas <> VNone ->
    py_iter ventas = Raise e ->
    ejecuta catalogo ventas errores (Raise e) errores
| ejecuta_bucle items r errores' :
    catalogo <> VNone -> ventas <> VNone ->
    py_iter ventas = Ret items ->
    bucle catalogo items (VInt 0) errores r errores' ->
    ejecuta catalogo ventas errores r errores'.

End Relations.

(** ** The reconciliation as the specification words it *)

(** A field of a record, [None] when the record does not have it. *)
Definition campo (d : registro) (k : string) : pyval := default VNone (d !! k).

(** The first entry, in catalog order, whose title equals the product. *)
Fixpoint primera_coincidencia (catalogo : list registro) (producto : pyval)
  : option registro :=
  match catalogo with
  | [] => None
  | entrada :: resto =>
      if py_eq (campo entrada "title") producto then Some entrada
      else primera_coincidencia resto producto
  end.

(** The sales records that count: Product and Quantity present and truthy,
    the product matched in the catalog, the matched entry priced.  For such
    a record, its quantity and the price. *)
Definition cuenta (catalogo : list registro) (item : registro)
  : option (pyval * pyval) :=
  let producto := campo item "Product" in
  let quantity := campo item "Quantity" in
  if py_truthy producto && py_truthy quantity then
    match primera_coincidencia catalogo producto with
    | Some entrada =>
        let price := campo entrada "price" in
        if is_none price then None else Some (quantity, price)
    | None => None
    end
  else None.

(** The running total: each unrounded product is added, in order. *)
Fixpoint acumular (pares : list (pyval * pyval)) (total : pyval) : outcome pyval :=
  match pares with
  | [] => Ret total
  | (quantity, price) :: resto =>
      obind (py_mul quantity price) (fun subtotal =>
      obind (py_add total subtotal) (acumular resto))
  end.

Definition suma_de_subtotales (catalogo ventas : list registro) : outcome pyval :=
  acumular (omap (cuenta catalogo) ventas) (VInt 0).

(** The error message of a record that does not count. *)
Definition error_de {RT : PyRuntime} (catalogo : list registro) (item : registro)
  : option string :=
  let producto := campo item "Product" in
  let quantity := campo item "Quantity" in
  if py_truthy producto && py_truthy quantity then
    match primera_coincidencia catalogo producto with
    | Some entrada =>
        if is_none (campo entrada "price") then Some (msg_sin_precio producto)
        else None
    | None => Some (msg_no_encontrado producto)
    end
  else Some msg_sin_campo.

(** The message [leer_archivo_json] prints when it cannot load [ruta]. *)
Definition falla_de_carga (w : world) (ruta : string) : option string :=
  match w_archivos w !! ruta with
  | None => Some ("Archivo '" +:+ ruta +:+ "' no encontrado en la ruta indicada.")
  | Some (FallaJSON e) =>
      Some ("Error en la decodificación con el archivo JSON: " +:+ e)
  | Some (FallaOtra e) =>
      Some ("No se pudo leer el contenido del archivo JSON: " +:+ e)
  | Some (Decodifica _) => None
  end.

(** ** Numbers within range

    [numero_acotado cota v]: the field [v] is absent or a number, and when
    it is an integer its magnitude is at most [cota]. *)
Definition numero_acotado (cota : Z) (v : pyval) : Prop :=
  match v with
  | VNone | VFloat _ => True
  | VBool b => Z.b2z b <= cota
  | VInt z => Z.abs z <= cota
  | _ => False
  end.

(** A running total: a float, or an integer of magnitude at most [cota]. *)
Definition total_acotado (cota : Z) (v : pyval) : Prop :=
  match v with
  | VFloat _ => True
  | VInt z => Z.abs z <= cota
  | _ => False
  end.

(** ** Commands that write no file *)

Definition conserva {A : Type} (m : M world A) : Prop :=
  forall (w : world) (r : outcome A) (w' : world),
    m w = (r, w') -> w_escritos w' = w_escritos w.

(** ** Sample inputs

    A runtime for the closed examples: [str] is right on [None], booleans
    and integers, [format] refuses the values that have no format
    specification of their own, and [round] leaves a float alone, which is
    right on the floats of the examples (they have at most two decimals). *)

Definition rt_ejemplo : PyRuntime := {|
  py_repr := fun v =>
    match v with
    | VNone => "None"
    | VBool b => if b then "True" else "False"
    | VInt z => pretty z
    | _ => "<valor>"
    end;
  py_format := fun v spec =>
    match v with
    | VNone | VList _ | VDict _ => Raise TypeError
    | VStr s => Ret s
    | VBool b => Ret (pretty (Z.b2z b))
    | VInt z => Ret (pretty z)
    | VFloat _ => Ret "<float>"
    end;
  round_float := fun f => f
|}.

(** Scenario A of the specification. *)
Definition catalogo_A : list registro :=
  [ {[ "title" := VStr "Pen"; "price" := VFloat 1.5 ]} ].
Definition venta_pen : registro :=
  {[ "Product" := VStr "Pen"; "Quantity" := VInt 4 ]}.
Definition ventas_A : list registro := [ venta_pen ].

(** Scenario B: a product the catalog does not have. *)
Definition venta_eraser : registro :=
  {[ "Product" := VStr "Eraser"; "Quantity" := VInt 1 ]}.
Definition ventas_B : list registro := [ venta_eraser ].

(** A quantity that is text, against an integer price. *)
Definition catalogo_entero : list registro :=
  [ {[ "title" := VStr "Pen"; "price" := VInt 3 ]} ].
Definition ventas_texto : list registro :=
  [ {[ "Product" := VStr "Pen"; "Quantity" := VStr "two" ]} ].

(** A quantity of zero. *)
Definition venta_cero : registro :=
  {[ "Product" := VStr "Pen"; "Quantity" := VInt 0 ]}.

(** Titles that differ in case only, and a duplicated title. *)
Definition pen_minuscula : registro := {[ "title" := VStr "pen"; "price" := VInt 9 ]}.
Definition pen_primero : registro := {[ "title" := VStr "Pen"; "price" := VFloat 1.5 ]}.
Definition pen_segundo : registro := {[ "title" := VStr "Pen"; "price" := VInt 2 ]}.
Definition catalogo_duplicado : list registro :=
  [ pen_minuscula; pen_primero; pen_segundo ].

(** Scenario C: a catalog entry without price; and a sale without Quantity. *)
Definition ink_sin_precio : registro := {[ "title" := VStr "Ink" ]}.
Definition catalogo_C : list registro := [ pen_primero; ink_sin_precio ].
Definition venta_ink : registro := {[ "Product" := VStr "Ink"; "Quantity" := VInt 2 ]}.
Definition venta_sin_cantidad : registro := {[ "Product" := VStr "Pen" ]}.
Definition ventas_C : list registro := [ venta_pen; venta_ink ].

Definition argv_ejemplo : list string := [ "computeSales.py"; "c.json"; "v.json" ].

(** Scenario E: no file at either path. *)
Definition mundo_vacio : world :=
  {| w_archivos := ∅; w_stdout := []; w_escritos := ∅; w_reloj := [] |}.

(** Both files present and well formed. *)
Definition mundo_C : world :=
  {| w_archivos := {[ "c.json" := Decodifica (lista catalogo_C);
                      "v.json" := Decodifica (lista ventas_C) ]};
     w_stdout := []; w_escritos := ∅; w_reloj := [] |}.

(** ** Vocabulary for the properties of the whole program *)

Definition es_dict (v : pyval) : bool :=
  match v with
  | VDict _ => true
  | _ => false
  end.

(** The values a running total can take: an [int] or a [float]. *)
Definition es_total (v : pyval) : bool :=
  match v with
  | VInt _ | VFloat _ => true
  | _ => false
  end.

(** The world after [lineas] have been printed. *)
Definition con_salida (w : world) (lineas : list string) : world :=
  {| w_archivos := w_archivos w;
     w_stdout := w_stdout w ++ lineas;
     w_escritos := w_escritos w;
     w_reloj := w_reloj w |}.

(** The world in which the report file holds [texto]. *)
Definition con_reporte (w : world) (texto : string) : world :=
  {| w_archivos := w_archivos w;
     w_stdout := w_stdout w;
     w_escritos := <[SalesResults := texto]> (w_escritos w);
     w_reloj := w_reloj w |}.

(** The value [leer_archivo_json] returns for [ruta]. *)
Definition carga (w : world) (ruta : string) : pyval :=
  match w_archivos w !! ruta with
  | Some (Decodifica data) => data
  | _ => VNone
  end.

(** Two records that agree on the fields [claves]. *)
Definition mismos_campos (claves : list string) (a b : registro) : Prop :=
  Forall (fun k => campo a k = campo b k) claves.

(** The text of the report, piece by piece: the block of errors, the lines
    above the table, the rows, the lines below the table. *)
Definition bloque_errores (errores : list string) : string :=
  if bool_decide (0 < length errores)%nat then
    ("Se presentaron errores:" +:+ nl) +:+
    foldr (fun error resto => ("* " +:+ error +:+ nl) +:+ resto) EmptyString errores
  else EmptyString.

Definition cabecera_archivo : string :=
  (nl +:+ "Resultado de las ventas:") +:+
  (nl +:+ titulos +:+ " " +:+ nl) +:+
  (raya +:+ nl).

Section Report.

Context {RT : PyRuntime}.

Definition pie_archivo (costo_form : string) (tiempo_transcurrido : pyval) : string :=
  (raya +:+ nl) +:+
  ("* Costo Total: " +:+ costo_form +:+ nl) +:+
  ("* Tiempo Transcurrido: " +:+ py_str tiempo_transcurrido +:+ " segundos" +:+ nl).

(** The row [escribir_fila] writes for [item], if any. *)
Definition linea_archivo (catalogo item : pyval) : outcome (option string) :=
  obind (renglon catalogo item) (fun r =>
  match r with
  | Some (producto, quantity, price, subtotal) =>
      obind (fila_archivo producto quantity price subtotal) (fun texto =>
      Ret (Some texto))
  | None => Ret None
  end).

(** The rows written for [items] up to the first item that raises, and
    that exception. *)
Fixpoint tabla_archivo (catalogo : pyval) (items : list pyval)
  : string * option pyexn :=
  match items with
  | [] => (EmptyString, None)
  | item :: resto =>
      match linea_archivo catalogo item with
      | Ret linea =>
          let (filas, e) := tabla_archivo catalogo resto in
          (default EmptyString linea +:+ filas, e)
      | Raise e => (EmptyString, Some e)
      end
  end.

(** The line [imprimir_fila] prints for [item], if any. *)
Definition linea_consola (catalogo item : pyval) : outcome (option string) :=
  obind (renglon catalogo item) (fun r =>
  match r with
  | Some (producto, quantity, price, subtotal) =>
      obind (fila_consola producto quantity price subtotal) (fun texto =>
      Ret (Some texto))
  | None => Ret None
  end).

(** The lines printed for [items] up to the first item that raises, and
    that exception. *)
Fixpoint tabla_consola (catalogo : pyval) (items : list pyval)
  : list string * option pyexn :=
  match items with
  | [] => ([], None)
  | item :: resto =>
      match linea_consola catalogo item with
      | Ret linea =>
          let (filas, e) := tabla_consola catalogo resto in
          (option_list linea ++ filas, e)
      | Raise e => ([], Some e)
      end
  end.

End Report.

(** The lines [main] prints for the errors. *)
Definition bloque_consola (errores : list string) : list string :=
  if bool_decide (0 < length errores)%nat then
    (nl +:+ "Se presentaron los siguientes errores:") ::
    ((fun error => "* " +:+ error) <$> errores)
  else [].

(** The record of [ventas_texto]. *)
Definition venta_dos : registro :=
  {[ "Product" := VStr "Pen"; "Quantity" := VStr "two" ]}.

(** Sales and catalogs for the instances of those properties. *)
Definition venta_devolucion : registro :=
  {[ "Product" := VStr "Pen"; "Quantity" := VInt (-2) ]}.
Definition pen_gratis : registro := {[ "title" := VStr "Pen"; "price" := VInt 0 ]}.
Definition venta_pen_anotada : registro :=
  {[ "Product" := VStr "Pen"; "Quantity" := VInt 4; "Store" := VStr "Norte" ]}.
Definition pen_anotado : registro :=
  {[ "title" := VStr "Pen"; "price" := VFloat 1.5; "sku" := VInt 17 ]}.

Definition mundo_nulo : world :=
  {| w_archivos := {[ "c.json" := Decodifica VNone;
                      "v.json" := FallaJSON "Expecting value" ]};
     w_stdout := []; w_escritos := ∅; w_reloj := [] |}.

Definition mundo_texto : world :=
  {| w_archivos := {[ "c.json" := Decodifica (lista catalogo_entero);
                      "v.json" := Decodifica (lista ventas_texto) ]};
     w_stdout := []; w_escritos := ∅; w_reloj := [] |}.

Definition mundo_A : world :=
  {| w_archivos := {[ "c.json" := Decodifica (lista catalogo_A);
                      "v.json" := Decodifica (lista ventas_A) ]};
     w_stdout := [];
     w_escritos := {[ "SalesResults.txt" := "un reporte anterior" ]};
     w_reloj := [] |}.

(** ** Basic facts about the embedding *)

Ltac desmontar :=
  unfold st_bind, st_lift, st_ret, st_raise, append, obind in *; simpl in *.

Section Facts.

Context {RT : PyRuntime}.

Lemma py_get_registro (d : registro) (k : string) :
  py_get (VDict d) k = Ret (campo d k).
Proof. reflexivity. Qed.

Lemma py_eq_str (t : pyval) (s : string) :
  py_eq t (VStr s) = true <-> t = VStr s.
Proof.
  split.
  - destruct t as [| b | z | f | s' | l | d]; simpl; try discriminate.
    intros Heq. apply bool_decide_eq_true in Heq. by subst.
  - intros ->. simpl. by apply bool_decide_eq_true.
Qed.

Lemma filtrar_registros (catalogo : list registro) (producto : pyval) :
  exists cruce,
    filtrar producto (VDict <$> catalogo) = Ret cruce /\
    head cruce = VDict <$> primera_coincidencia catalogo producto.
Proof.
  induction catalogo as [| entrada resto IH].
  - by exists [].
  - destruct IH as (cruce & Hcr & Hhead).
    rewrite fmap_cons. cbn [filtrar primera_coincidencia].
    rewrite py_get_registro, Hcr. cbn [obind].
    destruct (py_eq (campo entrada "title") producto); eauto.
Qed.

Lemma cruzar_lista (catalogo : list registro) (producto : pyval) :
  exists cruce,
    cruzar (lista catalogo) producto = Ret cruce /\
    head cruce = VDict <$> primera_coincidencia catalogo producto.
Proof. apply filtrar_registros. Qed.

Lemma cuenta_o_error (catalogo : list registro) (item : registro) :
  (is_Some (cuenta catalogo item) /\ error_de catalogo item = None) \/
  (cuenta catalogo item = None /\ is_Some (error_de catalogo item)).
Proof.
  unfold cuenta, error_de.
  destruct (py_truthy (campo item "Product") && py_truthy (campo item "Quantity"));
    [| by right].
  destruct (primera_coincidencia catalogo (campo item "Product")) as [entrada |];
    [| by right].
  destruct (is_none (campo entrada "price")); [by right | by left].
Qed.

(** The loop body on a record that counts: the product is added, nothing is
    appended. *)
Lemma procesar_cuenta (catalogo : list registro) (item : registro)
    (quantity price costo : pyval) (errores : list string) :
  cuenta catalogo item = Some (quantity, price) ->
  procesar (lista catalogo) (VDict item) costo errores
  = (obind (py_mul quantity price) (py_add costo), errores).
Proof.
  unfold cuenta, procesar. intros Hc. desmontar.
  fold (campo item "Product") (campo item "Quantity").
  destruct (py_truthy (campo item "Product") && py_truthy (campo item "Quantity"));
    [| discriminate].
  destruct (cruzar_lista catalogo (campo item "Product")) as (cruce & Hcr & Hhead).
  rewrite Hcr.
  destruct (primera_coincidencia catalogo (campo item "Product")) as [entrada |];
    [| discriminate].
  destruct cruce as [| coincidente resto]; [discriminate |].
  simpl in Hhead. injection Hhead as ->. simpl.
  fold (campo entrada "price").
  destruct (is_none (campo entrada "price")); [discriminate |].
  injection Hc as <- <-. simpl.
  by destruct (py_mul (campo item "Quantity") (campo entrada "price")).
Qed.

(** The loop body on a record that does not count: the total is kept and
    the record's message is appended. *)
Lemma procesar_error (catalogo : list registro) (item : registro)
    (msg : string) (costo : pyval) (errores : list string) :
  error_de catalogo item = Some msg ->
  procesar (lista catalogo) (VDict item) costo errores
  = (Ret costo, errores ++ [msg]).
Proof.
  unfold error_de, procesar. intros He. desmontar.
  fold (campo item "Product") (campo item "Quantity").
  destruct (py_truthy (campo item "Product") && py_truthy (campo item "Quantity"));
    [| by injection He as <-].
  destruct (cruzar_lista catalogo (campo item "Product")) as (cruce & Hcr & Hhead).
  rewrite Hcr.
  destruct (primera_coincidencia catalogo (campo item "Product")) as [entrada |].
  - destruct cruce as [| coincidente resto]; [discriminate |].
    simpl in Hhead. injection Hhead as ->. simpl.
    fold (campo entrada "price").
    destruct (is_none (campo entrada "price")); [| discriminate].
    by injection He as <-.
  - destruct cruce as [| coincidente resto]; [| discriminate].
    by injection He as <-.
Qed.

End Facts.

(** ** The total *)

Section Total.

Context {RT : PyRuntime}.

Lemma calcular_lista (catalogo ventas : list registro) (errores : list string) :
  calcular_costo_total (lista catalogo) (lista ventas) errores
  = st_fold (VDict <$> ventas) (procesar (lista catalogo)) (VInt 0) errores.
Proof. reflexivity. Qed.

(** The loop, from any total and any list of errors: its result is the
    running sum over the records that count, and when it returns, the
    messages of the other records have been appended in order. *)
Lemma bucle_acumula (catalogo ventas : list registro) (costo : pyval)
    (errores : list string) :
  let r := st_fold (VDict <$> ventas) (procesar (lista catalogo)) costo errores in
  r.1 = acumular (omap (cuenta catalogo) ventas) costo /\
  (forall total, r.1 = Ret total ->
                 r.2 = errores ++ omap (error_de catalogo) ventas).
Proof.
  revert costo errores.
  induction ventas as [| item resto IH]; intros costo errores.
  - simpl. split; [done |]. intros _ _. by rewrite app_nil_r.
  - rewrite fmap_cons. cbn [st_fold omap list_omap]. unfold st_bind.
    destruct (cuenta_o_error catalogo item) as [[[[q p] Hc] He] | [Hc [msg He]]].
    + rewrite (procesar_cuenta _ _ _ _ _ _ Hc), Hc, He. cbn [acumular].
      destruct (py_mul q p) as [subtotal | e]; cbn [obind]; [| by split].
      destruct (py_add costo subtotal) as [costo' | e]; [| by split].
      apply IH.
    + rewrite (procesar_error _ _ _ _ _ He), Hc, He.
      destruct (IH costo (errores ++ [msg])) as [IH1 IH2].
      split; [done |]. intros total Ht.
      rewrite (IH2 total Ht). by rewrite <- app_assoc.
Qed.

(** C1. For every catalog and every sales list, the value returned by
    [calcular_costo_total] is the sum, accumulated in order and without any
    rounding, of [quantity * price] over exactly the records that count
    (Product and Quantity present and truthy, product matched in the
    catalog, matched entry priced); and the total [main] keeps is that sum
    rounded to two decimals, once, after the loop. *)
Theorem total_es_suma_de_subtotales (catalogo ventas : list registro)
    (errores : list string) :
  (calcular_costo_total (lista catalogo) (lista ventas) errores).1
  = suma_de_subtotales catalogo ventas /\
  (costo_redondeado (lista catalogo) (lista ventas) errores).1
  = obind (suma_de_subtotales catalogo ventas) (py_round2 round_float).
Proof.
  pose proof (bucle_acumula catalogo ventas (VInt 0) errores) as [Hsum _].
  rewrite <- calcular_lista in Hsum.
  split; [exact Hsum |].
  unfold costo_redondeado, st_bind, st_lift, suma_de_subtotales.
  destruct (calcular_costo_total (lista catalogo) (lista ventas) errores)
    as [[total | e] errores'] eqn:Hrun; simpl in Hsum; by rewrite <- Hsum.
Qed.

(** A call that raises stopped on a record that counts, in its arithmetic. *)
Lemma bucle_lanza (catalogo ventas : list registro) (costo : pyval)
    (errores errores' : list string) (e : pyexn) :
  st_fold (VDict <$> ventas) (procesar (lista catalogo)) costo errores
  = (Raise e, errores') ->
  exists (antes : list registro) (item : registro) (despues : list registro)
         (q p parcial : pyval),
    ventas = antes ++ item :: despues /\
    cuenta catalogo item = Some (q, p) /\
    error_de catalogo item = None /\
    acumular (omap (cuenta catalogo) antes) costo = Ret parcial /\
    obind (py_mul q p) (py_add parcial) = Raise e /\
    errores' = errores ++ omap (error_de catalogo) antes.
Proof.
  revert costo errores.
  induction ventas as [| item resto IH]; intros costo errores; [done |].
  rewrite fmap_cons. cbn [st_fold]. unfold st_bind.
  destruct (cuenta_o_error catalogo item) as [[[[q p] Hc] He] | [Hc [msg He]]].
  - rewrite (procesar_cuenta _ _ _ _ _ _ Hc).
    destruct (obind (py_mul q p) (py_add costo)) as [costo' | e'] eqn:Harit.
    + intros Hrun.
      destruct (IH _ _ Hrun)
        as (antes & x & despues & q' & p' & parcial & -> & Hx & Hxe & Hacc & Hraise & ->).
      exists (item :: antes), x, despues, q', p', parcial.
      cbn [omap list_omap]. rewrite Hc, He. cbn [acumular].
      split; [done |]. split; [done |]. split; [done |].
      split; [| done].
      destruct (py_mul q p) as [subtotal |]; [| done]. cbn [obind] in *.
      by rewrite Harit.
    + intros [= <- <-].
      exists [], item, resto, q, p, costo.
      rewrite app_nil_r. by repeat split.
  - rewrite (procesar_error _ _ _ _ _ He). intros Hrun.
    destruct (IH _ _ Hrun)
      as (antes & x & despues & q' & p' & parcial & -> & Hx & Hxe & Hacc & Hraise & ->).
    exists (item :: antes), x, despues, q', p', parcial.
    cbn [omap list_omap]. rewrite Hc, He.
    split; [done |]. split; [done |]. split; [done |].
    split; [done |]. split; [done |]. by rewrite <- app_assoc.
Qed.


(** C10. With [None] for the catalog or for the sales, the function returns
    [None] at once and the list of errors is as the caller passed it. *)
Theorem sin_catalogo_o_sin_ventas (catalogo ventas : pyval) (errores : list string) :
  calcular_costo_total VNone ventas errores = (Ret VNone, errores) /\
  calcular_costo_total catalogo VNone errores = (Ret VNone, errores).
Proof.
  split; unfold calcular_costo_total; [done |].
  by rewrite orb_true_r.
Qed.

End Total.

(** ** Single records *)

Section Records.

Context {RT : PyRuntime}.

Lemma sin_titulo_no_coincide (entrada : registro) (producto : string) :
  entrada !! "title" <> Some (VStr producto) ->
  py_eq (campo entrada "title") (VStr producto) = false.
Proof.
  intros Hne. apply not_true_is_false. intros Heq.
  apply py_eq_str in Heq. apply Hne. unfold campo in Heq.
  destruct (entrada !! "title") as [t |]; simpl in Heq; [by subst | discriminate].
Qed.

Lemma primera_coincidencia_ninguna (catalogo : list registro) (producto : string) :
  Forall (fun entrada => entrada !! "title" <> Some (VStr producto)) catalogo ->
  primera_coincidencia catalogo (VStr producto) = None.
Proof.
  induction 1 as [| entrada resto Hne _ IH]; [done |]. simpl.
  by rewrite (sin_titulo_no_coincide _ _ Hne).
Qed.

Lemma primera_coincidencia_app (antes despues : list registro) (entrada : registro)
    (producto : string) :
  entrada !! "title" = Some (VStr producto) ->
  Forall (fun e => e !! "title" <> Some (VStr producto)) antes ->
  primera_coincidencia (antes ++ entrada :: despues) (VStr producto) = Some entrada.
Proof.
  intros Ht. induction 1 as [| e resto Hne _ IH]; simpl.
  - unfold campo. rewrite Ht. simpl. by rewrite bool_decide_eq_true_2.
  - by rewrite (sin_titulo_no_coincide _ _ Hne).
Qed.

Lemma primera_coincidencia_elem (catalogo : list registro) (producto : pyval)
    (entrada : registro) :
  primera_coincidencia catalogo producto = Some entrada -> entrada ∈ catalogo.
Proof.
  induction catalogo as [| e resto IH]; [done |]. simpl.
  destruct (py_eq (campo e "title") producto).
  - intros [= ->]. apply list_elem_of_here.
  - intros H. apply list_elem_of_further. by apply IH.
Qed.

Lemma py_truthy_str (s : string) : s <> EmptyString -> py_truthy (VStr s) = true.
Proof. intros Hs. simpl. by rewrite bool_decide_eq_false_2. Qed.

Lemma primera_coincidencia_sin_titulo (catalogo : list registro) (producto : pyval) :
  Forall (fun entrada => py_eq (campo entrada "title") producto = false) catalogo ->
  primera_coincidencia catalogo producto = None.
Proof.
  induction 1 as [| entrada resto Hne _ IH]; [done |]. simpl. by rewrite Hne.
Qed.



(** C7. A title matches a product name exactly when it is that very string
    (so case matters), and among several catalog entries with the title the
    lookup takes the first in catalog order: it heads [cruce], and the
    record is priced with it. *)
Theorem primera_coincidencia_exacta (antes despues : list registro)
    (entrada item : registro) (producto : string) (costo : pyval)
    (errores : list string) :
  entrada !! "title" = Some (VStr producto) ->
  Forall (fun e => e !! "title" <> Some (VStr producto)) antes ->
  item !! "Product" = Some (VStr producto) ->
  py_truthy (VStr producto) && py_truthy (campo item "Quantity") = true ->
  (forall titulo : pyval,
      py_eq titulo (VStr producto) = true <-> titulo = VStr producto) /\
  (exists resto,
      cruzar (lista (antes ++ entrada :: despues)) (VStr producto)
      = Ret (VDict entrada :: resto)) /\
  procesar (lista (antes ++ entrada :: despues)) (VDict item) costo errores
  = if is_none (campo entrada "price")
    then (Ret costo, errores ++ [msg_sin_precio (VStr producto)])
    else (obind (py_mul (campo item "Quantity") (campo entrada "price"))
                (py_add costo), errores).
Proof.
  intros Ht Hantes Hp Hq.
  pose proof (primera_coincidencia_app antes despues _ _ Ht Hantes) as Hfirst.
  split; [intros titulo; apply py_eq_str |]. split.
  - destruct (cruzar_lista (antes ++ entrada :: despues) (VStr producto))
      as (cruce & Hcr & Hhead).
    rewrite Hfirst in Hhead. destruct cruce as [| c resto]; [discriminate |].
    simpl in Hhead. injection Hhead as ->. by exists resto.
  - destruct (is_none (campo entrada "price")) eqn:Hprice.
    + apply procesar_error. unfold error_de.
      replace (campo item "Product") with (VStr producto)
        by (unfold campo; by rewrite Hp).
      by rewrite Hq, Hfirst, Hprice.
    + apply procesar_cuenta. unfold cuenta.
      replace (campo item "Product") with (VStr producto)
        by (unfold campo; by rewrite Hp).
      by rewrite Hq, Hfirst, Hprice.
Qed.

End Records.

(** ** Numeric fields never raise *)

Section Numbers.

Context {RT : PyRuntime}.

Lemma int_to_float_en_rango (z : Z) :
  Z.abs z < float_limit -> exists f, int_to_float z = Ret f.
Proof.
  intros Hz. unfold int_to_float.
  apply Z.ltb_lt in Hz. rewrite Hz. eauto.
Qed.

Lemma total_acotado_mono (m m' : Z) (v : pyval) :
  m <= m' -> total_acotado m v -> total_acotado m' v.
Proof. destruct v; simpl; try done. lia. Qed.

(** The product of a truthy quantity and a price that is not [None], both
    numbers within [cota]. *)
Lemma py_mul_acotado (cota : Z) (quantity price : pyval) :
  numero_acotado cota quantity -> numero_acotado cota price ->
  quantity <> VNone -> price <> VNone ->
  cota * cota < float_limit ->
  exists subtotal,
    py_mul quantity price = Ret subtotal /\ total_acotado (cota * cota) subtotal.
Proof.
  intros Hq Hp Hqn Hpn Hlim.
  destruct quantity as [| bq | zq | fq | | |]; try done;
    destruct price as [| bp | zp | fp | | |]; try done; simpl in Hq, Hp;
    unfold py_mul; simpl; unfold num_mul; simpl.
  - eexists. split; [done |]. simpl. destruct bq, bp; simpl in *; nia.
  - eexists. split; [done |]. simpl. destruct bq; simpl in *; nia.
  - destruct (int_to_float_en_rango (Z.b2z bq)) as [f ->];
      [destruct bq; simpl in *; nia | by eexists].
  - eexists. split; [done |]. simpl. destruct bp; simpl in *; nia.
  - eexists. split; [done |]. simpl. nia.
  - destruct (int_to_float_en_rango zq) as [f ->]; [nia | by eexists].
  - destruct (int_to_float_en_rango (Z.b2z bp)) as [f ->];
      [destruct bp; simpl in *; nia | by eexists].
  - destruct (int_to_float_en_rango zp) as [f ->]; [nia | by eexists].
  - by eexists.
Qed.

Lemma py_add_acotado (m k : Z) (total subtotal : pyval) :
  0 <= m -> 0 <= k ->
  total_acotado m total -> total_acotado k subtotal ->
  m + k < float_limit ->
  exists total',
    py_add total subtotal = Ret total' /\ total_acotado (m + k) total'.
Proof.
  intros Hm Hk Ht Hs Hlim.
  destruct total as [| | zt | ft | | |]; try done;
    destruct subtotal as [| | zs | fs | | |]; try done; simpl in Ht, Hs;
    unfold py_add; simpl; unfold num_add; simpl.
  - eexists. split; [done |]. simpl. lia.
  - destruct (int_to_float_en_rango zt) as [f ->]; [lia | by eexists].
  - destruct (int_to_float_en_rango zs) as [f ->]; [lia | by eexists].
  - by eexists.
Qed.

Lemma cuenta_campos (catalogo : list registro) (item : registro)
    (quantity price : pyval) :
  cuenta catalogo item = Some (quantity, price) ->
  quantity = campo item "Quantity" /\ quantity <> VNone /\ price <> VNone /\
  exists entrada, entrada ∈ catalogo /\ price = campo entrada "price".
Proof.
  unfold cuenta.
  destruct (py_truthy (campo item "Product")); [| done]. simpl.
  destruct (py_truthy (campo item "Quantity")) eqn:Hq; [| done].
  destruct (primera_coincidencia catalogo (campo item "Product"))
    as [entrada |] eqn:Hfirst; [| done].
  destruct (is_none (campo entrada "price")) eqn:Hprice; [done |].
  intros [= <- <-]. split; [done |].
  split; [by intros Hn; rewrite Hn in Hq |].
  split; [by intros Hn; rewrite Hn in Hprice |].
  exists entrada. split; [| done]. by eapply primera_coincidencia_elem.
Qed.

(** The loop keeps the total within range: after [j] records the total is a
    float or an integer of magnitude at most [j * cota^2]. *)
Lemma bucle_acotado (cota : Z) (catalogo ventas : list registro) :
  Forall (fun entrada => numero_acotado cota (campo entrada "price")) catalogo ->
  Forall (fun item => numero_acotado cota (campo item "Quantity")) ventas ->
  forall (j : Z) (costo : pyval) (errores : list string),
    0 <= j -> 0 <= cota ->
    total_acotado (j * (cota * cota)) costo ->
    (j + Z.of_nat (length ventas)) * (cota * cota) < float_limit ->
    exists total errores',
      st_fold (VDict <$> ventas) (procesar (lista catalogo)) costo errores
      = (Ret total, errores') /\
      total_acotado ((j + Z.of_nat (length ventas)) * (cota * cota)) total.
Proof.
  intros Hcat. induction 1 as [| item resto Hitem _ IH];
    intros j costo errores Hj Hcota Hcosto Hlim.
  - exists costo, errores. split; [done |].
    simpl. by rewrite Z.add_0_r.
  - rewrite fmap_cons. cbn [st_fold]. unfold st_bind.
    rewrite length_cons, Nat2Z.inj_succ in *.
    destruct (cuenta_o_error catalogo item) as [[[[q p] Hc] He] | [Hc [msg He]]].
    + rewrite (procesar_cuenta _ _ _ _ _ _ Hc).
      destruct (cuenta_campos _ _ _ _ Hc) as (-> & Hqn & Hpn & entrada & Hin & ->).
      rewrite Forall_forall in Hcat. specialize (Hcat _ Hin).
      destruct (py_mul_acotado cota _ _ Hitem Hcat Hqn Hpn) as (sub & -> & Hsub);
        [nia |].
      cbn [obind].
      destruct (py_add_acotado (j * (cota * cota)) (cota * cota) costo sub)
        as (costo' & -> & Hcosto'); [nia | nia | done | done | nia |].
      destruct (IH (j + 1) costo' errores) as (total & errores' & -> & Htotal);
        [lia | done | | | ].
      * eapply total_acotado_mono; [| exact Hcosto']. lia.
      * eapply Z.le_lt_trans; [| exact Hlim]. lia.
      * exists total, errores'. split; [done |].
        eapply total_acotado_mono; [| exact Htotal]. lia.
    + rewrite (procesar_error _ _ _ _ _ He).
      destruct (IH (j + 1) costo (errores ++ [msg])) as (total & errores' & -> & Htotal);
        [lia | done | | | ].
      * eapply total_acotado_mono; [| exact Hcosto]. nia.
      * eapply Z.le_lt_trans; [| exact Hlim]. lia.
      * exists total, errores'. split; [done |].
        eapply total_acotado_mono; [| exact Htotal]. lia.
Qed.


End Numbers.

(** ** Runs are determined by their arguments *)

Section Determinism.

Context {RT : PyRuntime}.

Lemma paso_procesar (catalogo item costo : pyval) (errores : list string)
    (r : outcome pyval) (errores' : list string) :
  paso catalogo item costo errores r errores' ->
  procesar catalogo item costo errores = (r, errores').
Proof.
  intros Hpaso. unfold procesar.
  destruct Hpaso; desmontar;
    repeat match goal with
           | H : _ = Ret _ |- _ => rewrite H; simpl
           | H : _ = Raise _ |- _ => rewrite H; simpl
           | H : _ && _ = _ |- _ => rewrite H; simpl
           end; try done.
  - destruct price; done.
  - destruct price; try done; by destruct (py_add costo_total subtotal).
Qed.

Lemma filtrar_registro_cabeza (producto : pyval) (items : list pyval)
    (coincidente : pyval) (resto : list pyval) :
  filtrar producto items = Ret (coincidente :: resto) ->
  exists d, coincidente = VDict d.
Proof.
  revert coincidente resto.
  induction items as [| product items IH]; intros coincidente resto; [done |].
  cbn [filtrar]. destruct product as [| | | | | | d]; try done.
  rewrite py_get_registro. cbn [obind].
  destruct (filtrar producto items) as [cruce | e]; [| done]. cbn [obind].
  destruct (py_eq (campo d "title") producto).
  - intros [= <- _]. by exists d.
  - intros [= ->]. by eapply IH.
Qed.

Lemma procesar_paso (catalogo item costo : pyval) (errores : list string) :
  paso catalogo item costo errores
       (procesar catalogo item costo errores).1
       (procesar catalogo item costo errores).2.
Proof.
  unfold procesar. desmontar.
  destruct (py_get item "Product") as [producto | e] eqn:Hp;
    [| by apply paso_sin_get].
  assert (exists quantity, py_get item "Quantity" = Ret quantity) as [quantity Hq].
  { destruct item; try done. by eexists. }
  rewrite Hq.
  destruct (py_truthy producto && py_truthy quantity) eqn:Ht;
    [| by eapply paso_sin_campo].
  destruct (cruzar catalogo producto) as [[| coincidente resto] | e] eqn:Hcr;
    [by eapply paso_no_encontrado | | by eapply paso_cruce_falla].
  assert (exists d, coincidente = VDict d) as [d ->].
  { unfold cruzar in Hcr. destruct (py_iter catalogo); [| done].
    by eapply filtrar_registro_cabeza. }
  rewrite py_get_registro.
  destruct (is_none (campo d "price")) eqn:Hprice; simpl.
  - eapply paso_sin_precio; try done.
    rewrite py_get_registro. by destruct (campo d "price").
  - assert (campo d "price" <> VNone) as Hnn by (by intros Hn; rewrite Hn in Hprice).
    destruct (py_mul quantity (campo d "price")) as [subtotal | e] eqn:Hmul.
    + replace (match py_add costo subtotal with
               | Ret a => (Ret a, errores)
               | Raise e => (Raise e, errores)
               end) with (py_add costo subtotal, errores)
        by (by destruct (py_add costo subtotal)).
      by eapply paso_suma.
    + by eapply paso_producto_falla.
Qed.

Lemma bucle_st_fold (catalogo : pyval) (items : list pyval) (costo : pyval)
    (errores : list string) (r : outcome pyval) (errores' : list string) :
  bucle catalogo items costo errores r errores' ->
  st_fold items (procesar catalogo) costo errores = (r, errores').
Proof.
  induction 1 as [| item resto costo errores costo' errores' r errores'' Hpaso _ IH
                  | item resto costo errores e errores' Hpaso];
    cbn [st_fold]; unfold st_bind; [done | |];
    by rewrite (paso_procesar _ _ _ _ _ _ Hpaso).
Qed.

Lemma st_fold_bucle (catalogo : pyval) (items : list pyval) (costo : pyval)
    (errores : list string) :
  bucle catalogo items costo errores
        (st_fold items (procesar catalogo) costo errores).1
        (st_fold items (procesar catalogo) costo errores).2.
Proof.
  revert costo errores.
  induction items as [| item resto IH]; intros costo errores.
  - apply bucle_fin.
  - cbn [st_fold]. unfold st_bind.
    pose proof (procesar_paso catalogo item costo errores) as Hpaso.
    destruct (procesar catalogo item costo errores) as [[costo' | e] errores'].
    + eapply bucle_sigue; [exact Hpaso | apply IH].
    + by apply bucle_corta.
Qed.

Lemma is_none_true (v : pyval) : is_none v = true <-> v = VNone.
Proof. destruct v; simpl; split; done. Qed.

Lemma is_none_false (v : pyval) : is_none v = false <-> v <> VNone.
Proof. destruct v; simpl; split; done. Qed.

(** Every derivation of a run ends as the function does. *)
Lemma ejecuta_calcular (catalogo ventas : pyval) (errores : list string)
    (r : outcome pyval) (errores' : list string) :
  ejecuta catalogo ventas errores r errores' ->
  calcular_costo_total catalogo ventas errores = (r, errores').
Proof.
  unfold calcular_costo_total.
  destruct 1 as [[-> | ->] | e Hc Hv Hiter | items r errores' Hc Hv Hiter Hbucle].
  - done.
  - by rewrite orb_true_r.
  - apply is_none_false in Hc, Hv. rewrite Hc, Hv. simpl.
    unfold st_bind, st_lift. by rewrite Hiter.
  - apply is_none_false in Hc, Hv. rewrite Hc, Hv. simpl.
    unfold st_bind, st_lift. rewrite Hiter. by apply bucle_st_fold.
Qed.

(** Every call has a run: the relation is not empty on any input. *)
Lemma calcular_ejecuta (catalogo ventas : pyval) (errores : list string) :
  ejecuta catalogo ventas errores
          (calcular_costo_total catalogo ventas errores).1
          (calcular_costo_total catalogo ventas errores).2.
Proof.
  unfold calcular_costo_total.
  destruct (is_none catalogo) eqn:Hc;
    [apply is_none_true in Hc; apply ejecuta_none; by left |].
  destruct (is_none ventas) eqn:Hv;
    [apply is_none_true in Hv; apply ejecuta_none; by right |].
  apply is_none_false in Hc, Hv. simpl. unfold st_bind, st_lift.
  destruct (py_iter ventas) as [items | e] eqn:Hiter.
  - eapply ejecuta_bucle; try done. apply st_fold_bucle.
  - by apply ejecuta_no_iterable.
Qed.

(** C8. Two runs of [calcular_costo_total] on the same catalog, the same
    sales and the same list of errors (a fresh empty one in particular) end
    with equal results and equal lists of errors. *)
Theorem ejecuta_determinista (catalogo ventas : pyval) (errores : list string)
    (r1 r2 : outcome pyval) (errores1 errores2 : list string) :
  ejecuta catalogo ventas errores r1 errores1 ->
  ejecuta catalogo ventas errores r2 errores2 ->
  r1 = r2 /\ errores1 = errores2.
Proof.
  intros H1 H2.
  apply ejecuta_calcular in H1, H2. rewrite H1 in H2.
  by injection H2 as -> ->.
Qed.

End Determinism.

(** ** Loading, and the fatal conditions *)

Section Loading.

Context {RT : PyRuntime}.

Lemma leer_falla (w : world) (ruta msg : string) :
  falla_de_carga w ruta = Some msg ->
  leer_archivo_json ruta w = (Ret VNone, (print msg w).2).
Proof.
  unfold falla_de_carga, leer_archivo_json.
  destruct (w_archivos w !! ruta) as [[data | e | e] |]; intros [= <-]; done.
Qed.

(** Loading returns, reads nothing but the files, writes no file, and can
    only add lines to the output. *)
Lemma leer_archivo_json_marco (w : world) (ruta : string) :
  exists v w' extra,
    leer_archivo_json ruta w = (Ret v, w') /\
    w_archivos w' = w_archivos w /\
    w_escritos w' = w_escritos w /\
    w_stdout w' = w_stdout w ++ extra.
Proof.
  unfold leer_archivo_json.
  destruct (w_archivos w !! ruta) as [[data | e | e] |].
  - exists data, w, []. by rewrite app_nil_r.
  - by eexists _, _, [_].
  - by eexists _, _, [_].
  - by eexists _, _, [_].
Qed.


End Loading.

(** ** The table of the report and of the console *)

Section Table.

Context {RT : PyRuntime}.

Lemma py_mul_none_l (v : pyval) : py_mul VNone v = Raise TypeError.
Proof. by destruct v. Qed.

Lemma py_mul_none_r (v : pyval) : py_mul v VNone = Raise TypeError.
Proof. by destruct v. Qed.

Lemma py_round2_not_none (v total : pyval) :
  py_round2 round_float v = Ret total -> total <> VNone.
Proof. destruct v; simpl; intros [= <-]; done. Qed.

(** What the table loops compute for a record: nothing when no catalog
    title equals its Product; otherwise the product of its Quantity and the
    price of the first such entry, whatever these two are. *)
Lemma renglon_registro (catalogo : list registro) (item : registro) :
  renglon (lista catalogo) (VDict item)
  = match primera_coincidencia catalogo (campo item "Product") with
    | None => Ret None
    | Some entrada =>
        obind (py_mul (campo item "Quantity") (campo entrada "price")) (fun bruto =>
        obind (py_round2 round_float bruto) (fun subtotal =>
        Ret (Some (campo item "Product", campo item "Quantity",
                   campo entrada "price", subtotal))))
    end.
Proof.
  unfold renglon. rewrite !py_get_registro. cbn [obind].
  destruct (cruzar_lista catalogo (campo item "Product")) as (cruce & -> & Hhead).
  cbn [obind].
  destruct (primera_coincidencia catalogo (campo item "Product")) as [entrada |].
  - destruct cruce as [| c resto]; [discriminate |].
    simpl in Hhead. injection Hhead as ->. by rewrite py_get_registro.
  - by destruct cruce.
Qed.

Lemma renglon_sin_numero (catalogo : list registro) (item entrada : registro) :
  primera_coincidencia catalogo (campo item "Product") = Some entrada ->
  campo item "Quantity" = VNone \/ campo entrada "price" = VNone ->
  renglon (lista catalogo) (VDict item) = Raise TypeError.
Proof.
  intros Hfirst Hnone. rewrite renglon_registro, Hfirst.
  destruct Hnone as [-> | ->]; by rewrite ?py_mul_none_l, ?py_mul_none_r.
Qed.

Lemma st_for_app {S A : Type} (xs ys : list A) (body : A -> M S unit) (s : S) :
  st_for (xs ++ ys) body s
  = match st_for xs body s with
    | (Ret _, s') => st_for ys body s'
    | (Raise e, s') => (Raise e, s')
    end.
Proof.
  revert s. induction xs as [| x xs IH]; intros s; [done |].
  simpl. unfold st_bind. destruct (body x s) as [[[] | e] s']; [apply IH | done].
Qed.

Lemma st_for_retorna {S A : Type} (xs : list A) (body : A -> M S unit) :
  Forall (fun x => forall s, exists s', body x s = (Ret tt, s')) xs ->
  forall s, exists s', st_for xs body s = (Ret tt, s').
Proof.
  induction 1 as [| x xs Hx _ IH]; intros s; [by eexists |].
  simpl. unfold st_bind. destruct (Hx s) as [s' ->]. apply IH.
Qed.

Lemma st_for_lanza {S A : Type} (xs : list A) (body : A -> M S unit) (x : A) :
  x ∈ xs ->
  (forall s, exists e s', body x s = (Raise e, s')) ->
  forall s, exists e s', st_for xs body s = (Raise e, s').
Proof.
  intros Hin Hx. induction xs as [| y xs IH]; intros s; [by inversion Hin |].
  simpl. unfold st_bind.
  destruct (body y s) as [[[] | e] s'] eqn:Hy; [| by eauto].
  apply elem_of_cons in Hin as [-> | Hin]; [| by apply IH].
  destruct (Hx s) as (e & s'' & Hraise). congruence.
Qed.

Lemma conserva_st_for {A : Type} (xs : list A) (body : A -> M world unit) :
  (forall x, conserva (body x)) -> conserva (st_for xs body).
Proof.
  intros Hbody. induction xs as [| x xs IH]; intros w r w'; simpl.
  - by intros [= _ <-].
  - unfold st_bind. destruct (body x w) as [[[] | e] w1] eqn:Hx.
    + intros Hrest. rewrite (IH _ _ _ Hrest). by eapply Hbody.
    + intros [= _ <-]. by eapply Hbody.
Qed.

Lemma conserva_print (linea : string) : conserva (print linea).
Proof. by intros w r w' [= _ <-]. Qed.

Lemma conserva_imprimir_fila (catalogo item : pyval) :
  conserva (imprimir_fila catalogo item).
Proof.
  intros w r w'. unfold imprimir_fila. desmontar.
  destruct (renglon catalogo item) as [[[[[p q] pr] s] |] | e];
    try (by intros [= _ <-]).
  destruct (fila_consola p q pr s); by intros [= _ <-].
Qed.

Lemma escribir_fila_registro (catalogo : list registro) (item : registro) (w : world) :
  escribir_fila (lista catalogo) (VDict item) w
  = match primera_coincidencia catalogo (campo item "Product") with
    | None => (Ret tt, w)
    | Some entrada =>
        match
          obind (py_mul (campo item "Quantity") (campo entrada "price")) (fun bruto =>
          obind (py_round2 round_float bruto) (fun subtotal =>
          fila_archivo (campo item "Product") (campo item "Quantity")
                       (campo entrada "price") subtotal))
        with
        | Ret texto => write SalesResults texto w
        | Raise e => (Raise e, w)
        end
    end.
Proof.
  unfold escribir_fila, st_bind, st_lift. rewrite renglon_registro.
  destruct (primera_coincidencia catalogo (campo item "Product")) as [entrada |];
    [| done].
  destruct (py_mul (campo item "Quantity") (campo entrada "price")) as [bruto | e];
    [| done].
  cbn [obind].
  destruct (py_round2 round_float bruto) as [subtotal | e]; [| done].
  cbn [obind].
  by destruct (fila_archivo _ _ _ subtotal).
Qed.

Lemma write_retorna (ruta texto : string) (w : world) :
  exists w', write ruta texto w = (Ret tt, w').
Proof. by eexists. Qed.

(** Up to the table, [escribir_archivo] cannot fail; from there on it ends
    as the loop over the sales does, when that loop raises. *)
Lemma escribir_archivo_tabla (costo_form : string) (tiempo : pyval)
    (catalogo ventas : list registro) (errores : list string) (w : world) :
  exists w1,
    forall (e : pyexn) (w2 : world),
      st_for (VDict <$> ventas) (escribir_fila (lista catalogo)) w1 = (Raise e, w2) ->
      escribir_archivo costo_form tiempo (lista ventas) (lista catalogo) errores w
      = (Raise e, w2).
Proof.
  unfold escribir_archivo.
  unfold st_bind at 1. cbn [open_w].
  unfold st_bind at 1.
  match goal with
  | |- context [(if ?c then ?a else ?b) ?w0] =>
      assert (exists w', (if c then a else b) w0 = (Ret tt, w')) as [w' ->]
  end.
  { case_bool_decide; [| by eexists].
    unfold st_bind at 1. cbn [write].
    apply st_for_retorna. apply Forall_forall. intros error _ s.
    apply write_retorna. }
  unfold st_bind at 1. cbn [write].
  unfold st_bind at 1. cbn [write].
  unfold st_bind at 1. cbn [write].
  unfold st_bind at 1. unfold st_lift at 1. cbn [py_iter lista].
  eexists. intros e w2 Hfor.
  unfold st_bind at 1. by rewrite Hfor.
Qed.


End Table.

(** ** The scenarios of the specification, and other closed instances *)

Ltac evaluar :=
  vm_compute;
  first [ reflexivity | exact I | discriminate | (intros ?; discriminate) ].

(** Scenario A: one pen at 1.5, four sold. *)
Example escenario_A :
  calcular_costo_total (RT := rt_ejemplo) (lista catalogo_A) (lista ventas_A) []
  = (Ret (VFloat 6), []).
Proof. vm_compute. reflexivity. Qed.

(** Scenario C: the entry matched by title has no price. *)
Example escenario_C :
  calcular_costo_total (RT := rt_ejemplo) (lista catalogo_C) (lista ventas_C) []
  = (Ret (VFloat 6), ["No existe precio para 'Ink'"]).
Proof. vm_compute. reflexivity. Qed.

(** Scenario D: a sale without Quantity gives one message, and the loop
    goes on to the next record. *)
Example escenario_D :
  calcular_costo_total (RT := rt_ejemplo) (lista catalogo_A)
                       (lista [venta_sin_cantidad; venta_pen]) []
  = (Ret (VFloat 6), [msg_sin_campo]).
Proof. vm_compute. reflexivity. Qed.

(** The same sale in the table: its Product is a title of the catalog, so
    the row is computed, and [None * 1.5] raises. *)
Example renglon_sin_cantidad :
  renglon (RT := rt_ejemplo) (lista catalogo_A) (VDict venta_sin_cantidad)
  = Raise TypeError.
Proof. vm_compute. reflexivity. Qed.










(** ["pen"] is not ["Pen"], and of the two entries titled ["Pen"] the first
    prices the sale. *)
Lemma primera_coincidencia_exacta_ejemplo :
  exists resto,
    cruzar (lista catalogo_duplicado) (VStr "Pen") = Ret (VDict pen_primero :: resto).
Proof.
  refine (proj1 (proj2 (primera_coincidencia_exacta (RT := rt_ejemplo)
           [pen_minuscula] [pen_segundo] pen_primero venta_pen "Pen" (VInt 0) []
           _ _ _ _))).
  - evaluar.
  - constructor; [evaluar | constructor].
  - evaluar.
  - evaluar.
Defined.

Lemma ejecuta_determinista_ejemplo :
  ejecuta (RT := rt_ejemplo) (lista catalogo_A) (lista ventas_A) [] (Ret (VFloat 6)) [] /\
  (calcular_costo_total (RT := rt_ejemplo) (lista catalogo_A) (lista ventas_A) []).1
  = Ret (VFloat 6) /\
  (calcular_costo_total (RT := rt_ejemplo) (lista catalogo_A) (lista ventas_A) []).2
  = [].
Proof.
  assert (ejecuta (RT := rt_ejemplo) (lista catalogo_A) (lista ventas_A) []
                  (Ret (VFloat 6)) []) as Hrun
    by exact (calcular_ejecuta (RT := rt_ejemplo) (lista catalogo_A) (lista ventas_A) []).
  split; [exact Hrun |].
  exact (ejecuta_determinista (RT := rt_ejemplo) _ _ _ _ _ _ _
           (calcular_ejecuta (RT := rt_ejemplo) (lista catalogo_A) (lista ventas_A) [])
           Hrun).
Defined.


(** ** Beyond the reconciliation of well-formed records

    What [calcular_costo_total] does with the list of errors it is given,
    and with sales and catalogs that do not have the expected shape. *)

Section Shape.

Context {RT : PyRuntime}.

Lemma st_fold_app {S A V : Type} (xs ys : list A) (body : A -> V -> M S V)
    (v : V) (s : S) :
  st_fold (xs ++ ys) body v s
  = match st_fold xs body v s with
    | (Ret v', s') => st_fold ys body v' s'
    | (Raise e, s') => (Raise e, s')
    end.
Proof.
  revert v s. induction xs as [| x xs IH]; intros v s; [done |].
  simpl. unfold st_bind. destruct (body x v s) as [[v' | e] s']; [apply IH | done].
Qed.

(** One iteration appends to the list it is given, at most one message, and
    neither the total nor the message depends on what the list held. *)
Lemma procesar_marco (catalogo item costo : pyval) (errores : list string) :
  procesar catalogo item costo errores
  = ((procesar catalogo item costo []).1,
     errores ++ (procesar catalogo item costo []).2) /\
  (length (procesar catalogo item costo []).2 <= 1)%nat.
Proof.
  unfold procesar. desmontar.
  destruct (py_get item "Product") as [producto | e];
    [| rewrite app_nil_r; split; [done | simpl; lia]].
  destruct (py_get item "Quantity") as [quantity | e];
    [| rewrite app_nil_r; split; [done | simpl; lia]].
  destruct (py_truthy producto && py_truthy quantity);
    [| split; [done | simpl; lia]].
  destruct (cruzar catalogo producto) as [[| coincidente resto] | e];
    [split; [done | simpl; lia] | | rewrite app_nil_r; split; [done | simpl; lia]].
  destruct (py_get coincidente "price") as [price | e];
    [| rewrite app_nil_r; split; [done | simpl; lia]].
  destruct (is_none price); simpl; [split; [done | simpl; lia] |].
  destruct (py_mul quantity price) as [subtotal | e];
    [| rewrite app_nil_r; split; [done | simpl; lia]].
  destruct (py_add costo subtotal); rewrite app_nil_r; split; done || (simpl; lia).
Qed.

Lemma st_fold_marco (catalogo : pyval) (items : list pyval) (costo : pyval)
    (errores : list string) :
  st_fold items (procesar catalogo) costo errores
  = ((st_fold items (procesar catalogo) costo []).1,
     errores ++ (st_fold items (procesar catalogo) costo []).2) /\
  (length (st_fold items (procesar catalogo) costo []).2 <= length items)%nat.
Proof.
  revert costo errores.
  induction items as [| item resto IH]; intros costo errores.
  - simpl. by rewrite app_nil_r.
  - cbn [st_fold]. unfold st_bind.
    destruct (procesar_marco catalogo item costo errores) as [-> Hlen].
    destruct (procesar catalogo item costo []) as [[costo' | e] nuevos]; simpl in *.
    + destruct (IH costo' (errores ++ nuevos)) as [-> _].
      destruct (IH costo' nuevos) as [-> Hresto]. simpl.
      rewrite app_assoc, length_app. split; [done | lia].
    + split; [done | lia].
Qed.

(** X1. [calcular_costo_total] only appends to [errores]: what the caller's
    list held stays in front, the result and the appended messages are the
    same as on an empty list, and at most one message is appended per item
    of the sales, also when the call ends with an exception. *)
Theorem errores_solo_crece (catalogo ventas : pyval) (errores : list string) :
  calcular_costo_total catalogo ventas errores
  = ((calcular_costo_total catalogo ventas []).1,
     errores ++ (calcular_costo_total catalogo ventas []).2) /\
  (length (calcular_costo_total catalogo ventas []).2
   <= match py_iter ventas with
      | Ret items => length items
      | Raise _ => 0
      end)%nat.
Proof.
  unfold calcular_costo_total.
  destruct (is_none catalogo || is_none ventas).
  - simpl. rewrite app_nil_r. split; [done | lia].
  - unfold st_bind, st_lift.
    destruct (py_iter ventas) as [items | e].
    + apply st_fold_marco.
    + simpl. by rewrite app_nil_r.
Qed.

(** X2. An item of the sales that is not an object ends the call with
    [AttributeError]: the messages of the records before it stay in the
    list, and the records after it are not looked at. *)
Theorem item_no_diccionario (catalogo : list registro) (antes : list registro)
    (x : pyval) (despues : list pyval) (errores errores' : list string)
    (total : pyval) :
  es_dict x = false ->
  calcular_costo_total (lista catalogo) (lista antes) errores = (Ret total, errores') ->
  calcular_costo_total (lista catalogo) (VList ((VDict <$> antes) ++ x :: despues))
                       errores
  = (Raise AttributeError, errores').
Proof.
  intros Hx Hantes. rewrite calcular_lista in Hantes.
  unfold calcular_costo_total. cbn [is_none lista orb py_iter].
  unfold st_bind at 1, st_lift at 1.
  rewrite st_fold_app, Hantes. cbn [st_fold]. unfold st_bind, procesar, st_lift.
  by destruct x.
Qed.

(** X3. Sales that are not a list, with a catalog that is not [None]: a
    number raises [TypeError]; an object or a string raises
    [AttributeError] unless it is empty, in which case the result is the
    integer 0; only a list is looped over.  None of the other cases appends
    a message or consults the catalog. *)
Theorem ventas_no_lista (catalogo ventas : pyval) (errores : list string) :
  is_none catalogo = false ->
  calcular_costo_total catalogo ventas errores
  = match ventas with
    | VNone => (Ret VNone, errores)
    | VBool _ | VInt _ | VFloat _ => (Raise TypeError, errores)
    | VStr s =>
        if bool_decide (s = EmptyString) then (Ret (VInt 0), errores)
        else (Raise AttributeError, errores)
    | VDict d =>
        if bool_decide (d = ∅) then (Ret (VInt 0), errores)
        else (Raise AttributeError, errores)
    | VList items => st_fold items (procesar catalogo) (VInt 0) errores
    end.
Proof.
  intros Hc. unfold calcular_costo_total. rewrite Hc.
  destruct ventas as [| b | z | f | s | items | d]; try done.
  - cbn [is_none orb py_iter]. unfold st_bind, st_lift.
    case_bool_decide as Hs; [by subst |].
    destruct s as [| c s]; [done |]. by simpl.
  - cbn [is_none orb py_iter]. unfold st_bind, st_lift.
    case_bool_decide as Hd; [subst; by rewrite map_to_list_empty |].
    destruct (map_to_list d) as [| [k v] resto] eqn:Hl;
      [by apply map_to_list_empty_iff in Hl |].
    by simpl.
Qed.

Lemma filtrar_no_diccionario (producto x : pyval) (items : list pyval) :
  x ∈ items -> es_dict x = false ->
  filtrar producto items = Raise AttributeError.
Proof.
  intros Hin Hx. induction items as [| product resto IH]; [by inversion Hin |].
  cbn [filtrar].
  destruct product as [| | | | | | d]; try done.
  rewrite py_get_registro. cbn [obind].
  apply elem_of_cons in Hin as [-> | Hin]; [done |].
  by rewrite IH.
Qed.

(** X4. The catalog is scanned whole for every record that reaches the
    lookup: an entry that is not an object, anywhere in the catalog, even
    after an entry that matches, ends the call with [AttributeError] and no
    message. *)
Theorem entrada_no_diccionario (entradas : list pyval) (x : pyval)
    (item : registro) (costo : pyval) (errores : list string) :
  x ∈ entradas -> es_dict x = false ->
  py_truthy (campo item "Product") && py_truthy (campo item "Quantity") = true ->
  procesar (VList entradas) (VDict item) costo errores
  = (Raise AttributeError, errores).
Proof.
  intros Hin Hx Ht. unfold procesar, st_bind, st_lift.
  rewrite !py_get_registro, Ht. unfold cruzar. cbn [py_iter obind].
  by rewrite (filtrar_no_diccionario _ _ _ Hin Hx).
Qed.

(** X5. Integer quantities and prices are combined exactly: on a record
    with an integer Quantity other than 0 whose matched entry has an
    integer price, the integer total grows by [quantity * price] and no
    message is appended.  A negative quantity lowers the total, and a price
    of 0 counts (the price is tested against [None], not for truth). *)
Theorem aritmetica_entera_exacta (catalogo : list registro) (item entrada : registro)
    (q p c : Z) (errores : list string) :
  py_truthy (campo item "Product") = true ->
  campo item "Quantity" = VInt q -> q <> 0 ->
  primera_coincidencia catalogo (campo item "Product") = Some entrada ->
  campo entrada "price" = VInt p ->
  procesar (lista catalogo) (VDict item) (VInt c) errores
  = (Ret (VInt (c + q * p)), errores).
Proof.
  intros Hp Hq Hq0 Hfirst Hprice.
  rewrite (procesar_cuenta catalogo item (VInt q) (VInt p)); [done |].
  unfold cuenta. rewrite Hp, Hq, Hfirst, Hprice. simpl.
  apply Z.eqb_neq in Hq0. by rewrite Hq0.
Qed.

End Shape.

(** ** Which fields matter, and how totals add up *)

Section Composition.

Context {RT : PyRuntime}.

Lemma mismos_campos_par (k1 k2 : string) (a b : registro) :
  mismos_campos [k1; k2] a b -> campo a k1 = campo b k1 /\ campo a k2 = campo b k2.
Proof.
  intros H. inversion H as [| ? ? H1 H']; subst.
  inversion H' as [| ? ? H2 _]; subst. done.
Qed.

Lemma primera_coincidencia_mismos (catalogo catalogo' : list registro)
    (producto : pyval) :
  Forall2 (mismos_campos ["title"; "price"]) catalogo catalogo' ->
  match primera_coincidencia catalogo producto,
        primera_coincidencia catalogo' producto with
  | Some e, Some e' => campo e "price" = campo e' "price"
  | None, None => True
  | _, _ => False
  end.
Proof.
  induction 1 as [| e e' resto resto' He _ IH]; [done |].
  apply mismos_campos_par in He as [Ht Hp]. simpl. rewrite <- Ht.
  by destruct (py_eq (campo e "title") producto).
Qed.

Lemma cuenta_mismos (catalogo catalogo' : list registro) (item item' : registro) :
  Forall2 (mismos_campos ["title"; "price"]) catalogo catalogo' ->
  mismos_campos ["Product"; "Quantity"] item item' ->
  cuenta catalogo item = cuenta catalogo' item' /\
  error_de catalogo item = error_de catalogo' item'.
Proof.
  intros Hcat Hitem. apply mismos_campos_par in Hitem as [Hp Hq].
  unfold cuenta, error_de. rewrite <- Hp, <- Hq.
  destruct (py_truthy (campo item "Product") && py_truthy (campo item "Quantity"));
    [| done].
  pose proof (primera_coincidencia_mismos _ _ (campo item "Product") Hcat) as Hfirst.
  destruct (primera_coincidencia catalogo (campo item "Product")) as [e |],
           (primera_coincidencia catalogo' (campo item "Product")) as [e' |];
    try done.
  by rewrite Hfirst.
Qed.

(** X6. Only four fields are read: two catalogs that agree, entry by entry,
    on title and price, and two sales lists that agree, record by record,
    on Product and Quantity, give the same result and the same messages,
    whatever else the records hold. *)
Theorem solo_cuatro_campos (catalogo catalogo' ventas ventas' : list registro)
    (errores : list string) :
  Forall2 (mismos_campos ["title"; "price"]) catalogo catalogo' ->
  Forall2 (mismos_campos ["Product"; "Quantity"]) ventas ventas' ->
  calcular_costo_total (lista catalogo) (lista ventas) errores
  = calcular_costo_total (lista catalogo') (lista ventas') errores.
Proof.
  intros Hcat Hventas. rewrite !calcular_lista.
  generalize (VInt 0) as costo. revert errores.
  induction Hventas as [| item item' resto resto' Hitem _ IH]; intros errores costo;
    [done |].
  rewrite !fmap_cons. cbn [st_fold]. unfold st_bind.
  destruct (cuenta_mismos _ _ _ _ Hcat Hitem) as [Hc He].
  destruct (cuenta_o_error catalogo item) as [[[[q p] Hq] _] | [_ [msg Hmsg]]].
  - rewrite (procesar_cuenta _ _ _ _ _ _ Hq).
    rewrite Hc in Hq. rewrite (procesar_cuenta _ _ _ _ _ _ Hq).
    destruct (obind (py_mul q p) (py_add costo)); [apply IH | done].
  - rewrite (procesar_error _ _ _ _ _ Hmsg).
    rewrite He in Hmsg. rewrite (procesar_error _ _ _ _ _ Hmsg).
    apply IH.
Qed.

Lemma py_add_entero (c : Z) (subtotal x : pyval) :
  py_add (VInt c) subtotal = Ret x ->
  (exists s, x = VInt (c + s) /\
             forall c', py_add (VInt c') subtotal = Ret (VInt (c' + s))) \/
  (exists f, x = VFloat f).
Proof.
  destruct subtotal as [| b | s | f | | |]; try done; unfold py_add; simpl.
  - intros [= <-]. left. by exists (Z.b2z b).
  - intros [= <-]. left. by exists s.
  - unfold num_add. simpl. destruct (int_to_float c); [| done].
    simpl. intros [= <-]. right. by eexists.
Qed.

Lemma py_add_flotante (f : float) (subtotal x : pyval) :
  py_add (VFloat f) subtotal = Ret x -> exists g, x = VFloat g.
Proof.
  destruct subtotal as [| b | s | g | | |]; try done;
    unfold py_add; simpl; unfold num_add; simpl.
  - destruct (int_to_float (Z.b2z b)); [| done]. simpl. intros [= <-]. by eexists.
  - destruct (int_to_float s); [| done]. simpl. intros [= <-]. by eexists.
  - intros [= <-]. by eexists.
Qed.

(** Once the total is a float it stays one. *)
Lemma bucle_flotante (catalogo ventas : list registro) (f : float)
    (errores errores' : list string) (total : pyval) :
  st_fold (VDict <$> ventas) (procesar (lista catalogo)) (VFloat f) errores
  = (Ret total, errores') ->
  exists g, total = VFloat g.
Proof.
  revert f errores.
  induction ventas as [| item resto IH]; intros f errores.
  - intros [= <- _]. by eexists.
  - rewrite fmap_cons. cbn [st_fold]. unfold st_bind.
    destruct (cuenta_o_error catalogo item) as [[[[q p] Hq] _] | [_ [msg Hmsg]]].
    + rewrite (procesar_cuenta _ _ _ _ _ _ Hq).
      destruct (py_mul q p) as [subtotal | e]; [| done]. cbn [obind].
      destruct (py_add (VFloat f) subtotal) as [x | e] eqn:Hadd; [| done].
      apply py_add_flotante in Hadd as [g ->]. apply IH.
    + rewrite (procesar_error _ _ _ _ _ Hmsg). apply IH.
Qed.

(** A run that ends on an integer did integer arithmetic only, so its
    starting total can be moved. *)
Lemma bucle_desplaza (catalogo ventas : list registro) (c t : Z)
    (errores errores' : list string) :
  st_fold (VDict <$> ventas) (procesar (lista catalogo)) (VInt c) errores
  = (Ret (VInt t), errores') ->
  forall c',
    st_fold (VDict <$> ventas) (procesar (lista catalogo)) (VInt c') errores
    = (Ret (VInt (t - c + c')), errores').
Proof.
  revert c errores.
  induction ventas as [| item resto IH]; intros c errores.
  - intros [= <- <-] c'. simpl. unfold st_ret. do 3 f_equal. lia.
  - rewrite fmap_cons. cbn [st_fold]. unfold st_bind.
    destruct (cuenta_o_error catalogo item) as [[[[q p] Hq] _] | [_ [msg Hmsg]]].
    + intros Hrun c'. rewrite (procesar_cuenta _ _ _ _ _ _ Hq) in Hrun.
      rewrite (procesar_cuenta _ _ _ _ _ _ Hq).
      destruct (py_mul q p) as [subtotal | e]; [| done]. cbn [obind] in *.
      destruct (py_add (VInt c) subtotal) as [x | e] eqn:Hadd; [| done].
      apply py_add_entero in Hadd as [(s & -> & Hs) | [f ->]].
      * rewrite Hs. rewrite (IH _ _ Hrun (c' + s)). do 3 f_equal. lia.
      * apply bucle_flotante in Hrun as [g Hg]. discriminate.
    + intros Hrun c'. rewrite (procesar_error _ _ _ _ _ Hmsg) in Hrun.
      rewrite (procesar_error _ _ _ _ _ Hmsg). by apply IH.
Qed.

(** X7. Integer totals add up over concatenation: when the sales [v1] give
    the integer [a] and the sales [v2], on an empty list of errors, give
    the integer [b], the sales [v1 ++ v2] give [a + b], with the messages
    of [v1] followed by those of [v2]. *)
Theorem total_entero_aditivo (catalogo v1 v2 : list registro) (a b : Z)
    (errores e1 e2 : list string) :
  calcular_costo_total (lista catalogo) (lista v1) errores = (Ret (VInt a), e1) ->
  calcular_costo_total (lista catalogo) (lista v2) [] = (Ret (VInt b), e2) ->
  calcular_costo_total (lista catalogo) (lista (v1 ++ v2)) errores
  = (Ret (VInt (a + b)), e1 ++ e2).
Proof.
  rewrite !calcular_lista. intros H1 H2.
  rewrite fmap_app, st_fold_app, H1.
  destruct (st_fold_marco (lista catalogo) (VDict <$> v2) (VInt a) e1) as [-> _].
  rewrite (bucle_desplaza _ _ _ _ _ _ H2 a). simpl. do 3 f_equal. lia.
Qed.

End Composition.

(** ** The loader and the report, as a whole *)

Section Files.

Context {RT : PyRuntime}.

Lemma str_app_assoc (a b c : string) : (a +:+ b) +:+ c = a +:+ (b +:+ c).
Proof.
  induction a as [| x a IH]; [done |].
  change (String x ((a +:+ b) +:+ c) = String x (a +:+ (b +:+ c))).
  by rewrite IH.
Qed.

Lemma str_app_nil_r (a : string) : a +:+ EmptyString = a.
Proof.
  induction a as [| x a IH]; [done |].
  change (String x (a +:+ EmptyString) = String x a).
  by rewrite IH.
Qed.

Lemma con_salida_nil (w : world) : con_salida w [] = w.
Proof. destruct w. unfold con_salida. simpl. by rewrite app_nil_r. Qed.

Lemma con_salida_app (w : world) (xs ys : list string) :
  con_salida (con_salida w xs) ys = con_salida w (xs ++ ys).
Proof. unfold con_salida. simpl. by rewrite app_assoc. Qed.

Lemma leer_archivo_json_eq (ruta : string) (w : world) :
  leer_archivo_json ruta w
  = (Ret (carga w ruta), con_salida w (option_list (falla_de_carga w ruta))).
Proof.
  unfold leer_archivo_json, carga, falla_de_carga.
  destruct (w_archivos w !! ruta) as [[data | e | e] |]; try done.
  simpl. by rewrite con_salida_nil.
Qed.


(** X10. When the reconciliation (or the rounding of its result) raises,
    [main] ends with that exception at once: the clock has been read once,
    and nothing has been printed or written, not even the messages collected
    before the exception. *)
Theorem main_propaga_excepcion (argv : list string) (w : world)
    (catalogo ventas : pyval) (e : pyexn) (errores : list string) :
  length argv = 3%nat ->
  w_archivos w !! nth 1 argv EmptyString = Some (Decodifica catalogo) ->
  w_archivos w !! nth 2 argv EmptyString = Some (Decodifica ventas) ->
  is_none catalogo = false -> is_none ventas = false ->
  costo_redondeado catalogo ventas [] = (Raise e, errores) ->
  main argv w = (Raise e, (time_time w).2) /\
  w_stdout (main argv w).2 = w_stdout w /\
  w_escritos (main argv w).2 = w_escritos w.
Proof.
  intros Hlen Hc Hv Hcn Hvn Hcosto. apply Nat.eqb_eq in Hlen.
  assert (main argv w = (Raise e, (time_time w).2)) as Hmain.
  { unfold main. unfold st_bind at 1. rewrite Hlen. cbn [negb st_ret].
    unfold st_bind at 1. unfold leer_archivo_json at 1. rewrite Hc. cbn [st_ret].
    unfold st_bind at 1. unfold leer_archivo_json at 1. rewrite Hv. cbn [st_ret].
    rewrite Hcn, Hvn. cbn [negb andb].
    unfold st_bind at 1. cbn [time_time]. by rewrite Hcosto. }
  by rewrite Hmain.
Qed.

Lemma open_w_reporte (w : world) :
  open_w SalesResults w = (Ret tt, con_reporte w EmptyString).
Proof. done. Qed.

Lemma write_reporte (w : world) (texto nuevo : string) :
  write SalesResults nuevo (con_reporte w texto)
  = (Ret tt, con_reporte w (texto +:+ nuevo)).
Proof.
  unfold write, con_reporte. simpl.
  by rewrite lookup_insert_eq, insert_insert_eq.
Qed.

Lemma escribir_errores_reporte (errores : list string) (w : world) (texto : string) :
  st_for errores (fun error => write SalesResults ("* " +:+ error +:+ nl))
         (con_reporte w texto)
  = (Ret tt,
     con_reporte w (texto +:+ foldr (fun error resto => ("* " +:+ error +:+ nl) +:+ resto)
                                    EmptyString errores)).
Proof.
  revert texto. induction errores as [| error resto IH]; intros texto.
  - simpl. by rewrite str_app_nil_r.
  - cbn [st_for foldr]. unfold st_bind. rewrite write_reporte, IH.
    by rewrite str_app_assoc.
Qed.

Lemma escribir_fila_linea (catalogo item : pyval) (w : world) (texto : string) :
  escribir_fila catalogo item (con_reporte w texto)
  = match linea_archivo catalogo item with
    | Ret linea => (Ret tt, con_reporte w (texto +:+ default EmptyString linea))
    | Raise e => (Raise e, con_reporte w texto)
    end.
Proof.
  unfold escribir_fila, linea_archivo, st_bind, st_lift.
  destruct (renglon catalogo item) as [[[[[p q] pr] s] |] | e]; cbn [obind];
    [| by rewrite str_app_nil_r | done].
  destruct (fila_archivo p q pr s) as [linea | e]; cbn [obind]; [| done].
  apply write_reporte.
Qed.

Lemma escribir_tabla_reporte (catalogo : pyval) (items : list pyval)
    (w : world) (texto : string) :
  st_for items (escribir_fila catalogo) (con_reporte w texto)
  = (match (tabla_archivo catalogo items).2 with
     | None => Ret tt
     | Some e => Raise e
     end,
     con_reporte w (texto +:+ (tabla_archivo catalogo items).1)).
Proof.
  revert texto. induction items as [| item resto IH]; intros texto.
  - simpl. by rewrite str_app_nil_r.
  - cbn [st_for tabla_archivo]. unfold st_bind. rewrite escribir_fila_linea.
    destruct (linea_archivo catalogo item) as [linea | e].
    + rewrite IH.
      destruct (tabla_archivo catalogo resto) as [filas e]. simpl.
      by rewrite str_app_assoc.
    + simpl. by rewrite str_app_nil_r.
Qed.

(** X11. The report after [escribir_archivo], whatever the file held
    before: the block of errors (only when there are errors), the lines
    above the table, one row per item up to the first item that raises,
    and, when no item raises, the lines of the total and the time.  On an
    exception the file keeps what was written so far. *)
Theorem escribir_archivo_contenido (costo_form : string) (tiempo : pyval)
    (ventas catalogo : pyval) (errores : list string) (w : world) :
  escribir_archivo costo_form tiempo ventas catalogo errores w
  = match py_iter ventas with
    | Raise e =>
        (Raise e, con_reporte w (bloque_errores errores +:+ cabecera_archivo))
    | Ret items =>
        match (tabla_archivo catalogo items).2 with
        | Some e =>
            (Raise e,
             con_reporte w (bloque_errores errores +:+ cabecera_archivo +:+
                            (tabla_archivo catalogo items).1))
        | None =>
            (Ret tt,
             con_reporte w (bloque_errores errores +:+ cabecera_archivo +:+
                            (tabla_archivo catalogo items).1 +:+
                            pie_archivo costo_form tiempo))
        end
    end.
Proof.
  unfold escribir_archivo.
  unfold st_bind at 1. rewrite open_w_reporte.
  unfold st_bind at 1.
  assert ((if bool_decide (0 < length errores)%nat
           then
             write SalesResults ("Se presentaron errores:" +:+ nl) ;;
             st_for errores (fun error => write SalesResults ("* " +:+ error +:+ nl))
           else st_ret tt) (con_reporte w EmptyString)
          = (Ret tt, con_reporte w (bloque_errores errores))) as ->.
  { unfold bloque_errores. case_bool_decide; [| done].
    unfold st_bind. by rewrite write_reporte, escribir_errores_reporte. }
  unfold st_bind at 1. rewrite write_reporte.
  unfold st_bind at 1. rewrite write_reporte.
  unfold st_bind at 1. rewrite write_reporte.
  unfold st_bind at 1, st_lift at 1.
  assert (((bloque_errores errores +:+ nl +:+ "Resultado de las ventas:") +:+
           nl +:+ titulos +:+ " " +:+ nl) +:+ raya +:+ nl
          = bloque_errores errores +:+ cabecera_archivo) as ->.
  { unfold cabecera_archivo. by rewrite !str_app_assoc. }
  destruct (py_iter ventas) as [items | e]; [| done].
  unfold st_bind at 1. rewrite escribir_tabla_reporte.
  destruct (tabla_archivo catalogo items) as [filas [e |]]; cbn [fst snd].
  - by rewrite str_app_assoc.
  - unfold st_bind at 1. rewrite write_reporte.
    unfold st_bind at 1. rewrite write_reporte.
    rewrite write_reporte. unfold pie_archivo. by rewrite !str_app_assoc.
Qed.

Lemma escribir_archivo_forma (costo_form : string) (tiempo : pyval)
    (ventas catalogo : pyval) (errores : list string) :
  exists r texto,
    forall w, escribir_archivo costo_form tiempo ventas catalogo errores w
              = (r, con_reporte w texto).
Proof.
  destruct (py_iter ventas) as [items | e] eqn:Hiter.
  - destruct (tabla_archivo catalogo items) as [filas [e |]] eqn:Htabla.
    + eexists _, _. intros w.
      by rewrite escribir_archivo_contenido, Hiter, Htabla.
    + eexists _, _. intros w.
      by rewrite escribir_archivo_contenido, Hiter, Htabla.
  - eexists _, _. intros w. by rewrite escribir_archivo_contenido, Hiter.
Qed.

(** X12. [escribir_archivo] starts the report afresh: its result and the
    text it leaves in SalesResults.txt are the same from any two worlds,
    whatever either held at that path, and the file is there afterwards even
    when the call raises.  It prints nothing, does not read the clock, and
    leaves every other file the process wrote as it was. *)
Theorem escribir_archivo_sobrescribe (costo_form : string) (tiempo : pyval)
    (ventas catalogo : pyval) (errores : list string) (w1 w2 : world) :
  let fin1 := escribir_archivo costo_form tiempo ventas catalogo errores w1 in
  let fin2 := escribir_archivo costo_form tiempo ventas catalogo errores w2 in
  fin1.1 = fin2.1 /\
  w_escritos fin1.2 !! SalesResults = w_escritos fin2.2 !! SalesResults /\
  is_Some (w_escritos fin1.2 !! SalesResults) /\
  w_stdout fin1.2 = w_stdout w1 /\
  w_reloj fin1.2 = w_reloj w1 /\
  (forall ruta, ruta <> SalesResults ->
                w_escritos fin1.2 !! ruta = w_escritos w1 !! ruta).
Proof.
  destruct (escribir_archivo_forma costo_form tiempo ventas catalogo errores)
    as (r & texto & Hforma).
  simpl. rewrite !Hforma. simpl.
  rewrite !lookup_insert_eq. repeat split; try done.
  intros ruta Hruta. by rewrite lookup_insert_ne.
Qed.

End Files.

(** ** The report is opened only after the console table got through *)

Section WholeReport.

Context {RT : PyRuntime}.

Lemma fila_consola_archivo (p q pr s : pyval) (texto : string) :
  fila_consola p q pr s = Ret texto -> exists linea, fila_archivo p q pr s = Ret linea.
Proof.
  unfold fila_consola, fila_archivo.
  destruct (py_format p "<40"); [| done].
  destruct (py_format q "^10"); [| done].
  destruct (py_format pr "^15"); [| done].
  destruct (py_format s "^15"); [| done].
  by eexists.
Qed.

(** The two table loops compute and format the same values: where the loop
    of the console gets through, so does the loop of the report. *)
Lemma consola_implica_archivo (catalogo : pyval) (items : list pyval) (w w' : world) :
  st_for items (imprimir_fila catalogo) w = (Ret tt, w') ->
  (tabla_archivo catalogo items).2 = None.
Proof.
  revert w. induction items as [| item resto IH]; intros w; [done |].
  cbn [st_for tabla_archivo]. unfold st_bind at 1.
  unfold imprimir_fila at 1, linea_archivo, st_bind, st_lift.
  destruct (renglon catalogo item) as [[[[[p q] pr] s] |] | e]; cbn [obind];
    [| | done].
  - destruct (fila_consola p q pr s) as [texto | e] eqn:Hfila; [| done].
    apply fila_consola_archivo in Hfila as [linea ->]. cbn [obind print].
    intros Hresto. apply IH in Hresto.
    by destruct (tabla_archivo catalogo resto).
  - cbn [st_ret]. intros Hresto. apply IH in Hresto.
    by destruct (tabla_archivo catalogo resto).
Qed.

(** X13. [main] opens the report only after the table of the console got
    through: whenever a run has written to a file, the sales were iterable
    and, for every item, computing the row ([round(quantity * price, 2)])
    and formatting its four values raised nothing, in the loop of the
    console and, the values and format specifications being the same, in
    the loop of the report.  An exception of the table thus ends the run
    before any file is opened. *)
Theorem main_abre_reporte_tras_consola (argv : list string) (w : world) :
  w_escritos (main argv w).2 = w_escritos w \/
  exists items,
    py_iter (carga w (nth 2 argv EmptyString)) = Ret items /\
    (tabla_archivo (carga w (nth 1 argv EmptyString)) items).2 = None.
Proof.
  set (fin := main argv w).
  assert (main argv w = fin) as Hfin by done.
  clearbody fin. revert Hfin.
  unfold main. unfold st_bind at 1.
  destruct (negb (length argv =? 3)%nat); [intros <-; by left |]. cbn [st_ret].
  unfold st_bind at 1. rewrite leer_archivo_json_eq.
  unfold st_bind at 1. rewrite leer_archivo_json_eq.
  match goal with
  | |- context [carga ?w2 (nth 2 argv EmptyString)] =>
      change (carga w2 (nth 2 argv EmptyString))
        with (carga w (nth 2 argv EmptyString))
  end.
  set (catalogo := carga w (nth 1 argv EmptyString)).
  set (ventas := carga w (nth 2 argv EmptyString)).
  match goal with
  | |- context [(if _ then _ else _) ?w2] =>
      assert (w_escritos w2 = w_escritos w) as Hw2 by done;
      generalize dependent w2
  end.
  intros w2 Hw2.
  destruct (negb (is_none catalogo) && negb (is_none ventas));
    [| intros <-; by left].
  unfold st_bind at 1. cbn [time_time].
  destruct (costo_redondeado catalogo ventas []) as [[costo_total | e] errores];
    [| intros <-; by left].
  unfold st_bind at 1, st_lift at 1.
  unfold st_bind at 1. cbn [time_time].
  match goal with
  | |- context [VFloat ?t] => generalize (VFloat t) as tiempo
  end.
  intros tiempo.
  unfold st_bind at 1.
  match goal with
  | |- context [(if bool_decide _ then ?a else ?b) ?w0] =>
      assert (exists w3, (if bool_decide (0 < length errores)%nat then a else b) w0
                         = (Ret tt, w3) /\ w_escritos w3 = w_escritos w)
        as (w3 & -> & Hw3)
  end.
  { case_bool_decide; [| by eexists].
    unfold st_bind at 1. cbn [print].
    match goal with
    | |- context [st_for ?xs ?f ?w0] =>
        destruct (st_for_retorna xs f) with (s := w0) as [w3 Hfor];
          [apply Forall_forall; intros error _ s; by eexists |];
          pose proof (conserva_st_for xs f (fun x => conserva_print _) _ _ _ Hfor)
          as Hesc
    end.
    exists w3. split; [done |]. by rewrite Hesc. }
  destruct (negb (is_none costo_total)); [| intros <-; by left].
  unfold st_bind at 1, st_lift at 1.
  destruct (py_format costo_total ",.2f") as [importe | e]; [| intros <-; by left].
  unfold st_bind at 1. cbn [print].
  unfold st_bind at 1. cbn [print].
  unfold st_bind at 1. cbn [print].
  unfold st_bind at 1, st_lift at 1.
  destruct (py_iter ventas) as [items | e] eqn:Hiter; [| intros <-; by left].
  unfold st_bind at 1.
  match goal with
  | |- context [st_for items (imprimir_fila catalogo) ?w0] =>
      destruct (st_for items (imprimir_fila catalogo) w0) as [[[] | e] w4] eqn:Hfor;
        pose proof (conserva_st_for items (imprimir_fila catalogo)
                      (conserva_imprimir_fila _) _ _ _ Hfor) as Hw4;
        simpl in Hw4
  end.
  - intros _. right. exists items. split; [done |].
    by eapply consola_implica_archivo.
  - intros <-. left. simpl. by rewrite Hw4.
Qed.

End WholeReport.

(** ** Closed instances of the properties of the whole program *)

Lemma item_no_diccionario_ejemplo :
  calcular_costo_total (RT := rt_ejemplo) (lista catalogo_A)
    (VList ((VDict <$> [venta_eraser]) ++ VInt 7 :: [VDict venta_pen])) []
  = (Raise AttributeError, ["No se encontró el producto 'Eraser'"]).
Proof.
  apply (item_no_diccionario (RT := rt_ejemplo) catalogo_A [venta_eraser]
           (VInt 7) [VDict venta_pen] [] _ (VInt 0)).
  - reflexivity.
  - vm_compute. reflexivity.
Defined.

(** One sale given as an object, not inside a list. *)
Lemma ventas_no_lista_ejemplo :
  calcular_costo_total (RT := rt_ejemplo) (lista catalogo_A) (VDict venta_pen) []
  = (Raise AttributeError, []).
Proof.
  rewrite (ventas_no_lista (RT := rt_ejemplo) (lista catalogo_A) (VDict venta_pen) []);
    [| reflexivity].
  vm_compute. reflexivity.
Defined.

(** The entry that matches comes first, the text entry after it. *)
Lemma entrada_no_diccionario_ejemplo :
  procesar (RT := rt_ejemplo) (VList [VDict pen_primero; VStr "Ink"])
           (VDict venta_pen) (VInt 0) []
  = (Raise AttributeError, []).
Proof.
  apply (entrada_no_diccionario (RT := rt_ejemplo) _ (VStr "Ink")).
  - apply list_elem_of_further, list_elem_of_here.
  - reflexivity.
  - evaluar.
Defined.

(** Two pens returned at 3 each, from a total of 10. *)
Lemma aritmetica_entera_exacta_ejemplo :
  procesar (RT := rt_ejemplo) (lista catalogo_entero) (VDict venta_devolucion)
           (VInt 10) []
  = (Ret (VInt (10 + -2 * 3)), []).
Proof.
  apply (aritmetica_entera_exacta (RT := rt_ejemplo) catalogo_entero
           venta_devolucion {[ "title" := VStr "Pen"; "price" := VInt 3 ]}).
  - evaluar.
  - evaluar.
  - discriminate.
  - evaluar.
  - evaluar.
Defined.

(** A free pen counts, and adds nothing. *)
Example precio_cero :
  calcular_costo_total (RT := rt_ejemplo) (lista [pen_gratis]) (lista ventas_A) []
  = (Ret (VInt 0), []).
Proof. vm_compute. reflexivity. Qed.

Lemma solo_cuatro_campos_ejemplo :
  calcular_costo_total (RT := rt_ejemplo) (lista catalogo_A) (lista ventas_A) []
  = calcular_costo_total (RT := rt_ejemplo) (lista [pen_anotado])
                         (lista [venta_pen_anotada]) [].
Proof.
  apply (solo_cuatro_campos (RT := rt_ejemplo)).
  - constructor; [| constructor]. repeat constructor.
  - constructor; [| constructor]. repeat constructor.
Defined.

Lemma total_entero_aditivo_ejemplo :
  calcular_costo_total (RT := rt_ejemplo) (lista catalogo_entero)
                       (lista ([venta_pen] ++ [venta_devolucion; venta_eraser])) []
  = (Ret (VInt (12 + -6)), [] ++ ["No se encontró el producto 'Eraser'"]).
Proof.
  apply (total_entero_aditivo (RT := rt_ejemplo)).
  - vm_compute. reflexivity.
  - vm_compute. reflexivity.
Defined.


Lemma main_propaga_excepcion_ejemplo :
  main (RT := rt_ejemplo) argv_ejemplo mundo_texto
  = (Raise TypeError, (time_time mundo_texto).2) /\
  w_stdout (main (RT := rt_ejemplo) argv_ejemplo mundo_texto).2 = w_stdout mundo_texto /\
  w_escritos (main (RT := rt_ejemplo) argv_ejemplo mundo_texto).2
  = w_escritos mundo_texto.
Proof.
  apply (main_propaga_excepcion (RT := rt_ejemplo) argv_ejemplo mundo_texto
           (lista catalogo_entero) (lista ventas_texto) TypeError []).
  - reflexivity.
  - vm_compute. reflexivity.
  - vm_compute. reflexivity.
  - reflexivity.
  - reflexivity.
  - vm_compute. reflexivity.
Defined.

(** Scenario A from the command line: the run returns, and the report that
    was there is replaced by a whole one. *)
Example main_escenario_A :
  (main (RT := rt_ejemplo) argv_ejemplo mundo_A).1 = Ret tt /\
  w_escritos (main (RT := rt_ejemplo) argv_ejemplo mundo_A).2 !! SalesResults
  = Some (cabecera_archivo +:+ ("Pen 4<float> <float>" +:+ nl) +:+
          pie_archivo (RT := rt_ejemplo) "$<float>" (VFloat 0)).
Proof. split; vm_compute; reflexivity. Qed.

(** ** The total and the table, side by side *)

Section TotalAndTable.

Context {RT : PyRuntime}.

Lemma py_add_total (total subtotal x : pyval) :
  es_total total = true ->
  py_add total subtotal = Ret x ->
  es_total x = true /\ is_Some (as_num subtotal).
Proof.
  intros Ht.
  destruct total as [| | c | f | | |]; try done;
    destruct subtotal as [| b | s | g | | |]; try done;
    unfold py_add; simpl; unfold num_add; simpl;
    repeat match goal with
           | |- context [int_to_float ?z] => destruct (int_to_float z); simpl; [| done]
           end;
    intros [= <-]; by eauto.
Qed.

Lemma py_round2_total (x : pyval) :
  is_Some (as_num x) ->
  exists redondeado,
    py_round2 round_float x = Ret redondeado /\ es_total redondeado = true.
Proof. destruct x; intros [n Hn]; try done; by eexists. Qed.

Lemma py_mul_numero_o_secuencia (q p subtotal : pyval) :
  py_mul q p = Ret subtotal ->
  es_total subtotal = true \/ as_num subtotal = None.
Proof.
  destruct q as [| bq | zq | fq | sq | lq | dq], p as [| bp | zp | fp | sp | lp | dp];
    try done; unfold py_mul; simpl; unfold num_mul; simpl;
    repeat match goal with
           | |- context [int_to_float ?z] => destruct (int_to_float z); simpl; [| done]
           | |- context [repeticiones ?z] => destruct (repeticiones z); simpl; [| done]
           end;
    intros [= <-]; by eauto.
Qed.

(** The loop on records keeps the total an [int] or a [float], and what it
    adds for a record that counts is a number. *)
Lemma bucle_total (catalogo ventas : list registro) (costo total : pyval)
    (errores errores' : list string) :
  es_total costo = true ->
  st_fold (VDict <$> ventas) (procesar (lista catalogo)) costo errores
  = (Ret total, errores') ->
  es_total total = true /\
  Forall (fun item =>
            forall q p, cuenta catalogo item = Some (q, p) ->
                        exists subtotal,
                          py_mul q p = Ret subtotal /\ es_total subtotal = true)
         ventas.
Proof.
  revert costo errores.
  induction ventas as [| item resto IH]; intros costo errores Hcosto.
  - by intros [= <- _].
  - rewrite fmap_cons. cbn [st_fold]. unfold st_bind.
    destruct (cuenta_o_error catalogo item) as [[[[q p] Hq] _] | [Hn [msg Hmsg]]].
    + rewrite (procesar_cuenta _ _ _ _ _ _ Hq).
      destruct (py_mul q p) as [subtotal | e] eqn:Hmul; [| done]. cbn [obind].
      destruct (py_add costo subtotal) as [x | e] eqn:Hadd; [| done].
      destruct (py_add_total _ _ _ Hcosto Hadd) as [Hx [n Hn]].
      intros Hrun. destruct (IH _ _ Hx Hrun) as [Htotal Hresto].
      split; [done |]. constructor; [| done].
      intros q' p' Hq'. rewrite Hq in Hq'. injection Hq' as <- <-.
      exists subtotal. split; [done |].
      destruct (py_mul_numero_o_secuencia _ _ _ Hmul) as [Hs | Hs]; [done |].
      by rewrite Hs in Hn.
    + rewrite (procesar_error _ _ _ _ _ Hmsg).
      intros Hrun. destruct (IH _ _ Hcosto Hrun) as [Htotal Hresto].
      split; [done |]. constructor; [| done].
      intros q p Hq. by rewrite Hn in Hq.
Qed.

(** X14. On lists of records, the total [calcular_costo_total] returns is
    always an [int] or a [float], never [None], a boolean or a sequence: so
    the rounding in [main] cannot raise on it, and the rounded total is
    again an [int] or a [float]. *)
Theorem total_es_numero (catalogo ventas : list registro)
    (errores errores' : list string) (total : pyval) :
  calcular_costo_total (lista catalogo) (lista ventas) errores = (Ret total, errores') ->
  es_total total = true /\
  exists redondeado,
    costo_redondeado (lista catalogo) (lista ventas) errores
    = (Ret redondeado, errores') /\
    es_total redondeado = true.
Proof.
  intros Hrun. pose proof Hrun as Hrun'. rewrite calcular_lista in Hrun'.
  apply bucle_total in Hrun' as [Htotal _]; [| done].
  split; [done |].
  destruct (py_round2_total total) as (redondeado & Hround & Hred);
    [destruct total; try done; by eexists |].
  exists redondeado. split; [| done].
  unfold costo_redondeado, st_bind, st_lift. by rewrite Hrun, Hround.
Qed.

(** X15. For every record that counted towards a returned total, the table
    loops compute the four values of its row without an exception: the
    record's product and quantity, the matched price, and the rounding of
    the very product that was added to the total.  (Formatting those
    values is a further step, and can still raise.) *)
Theorem registro_contado_calcula_renglon (catalogo ventas : list registro)
    (errores errores' : list string) (total : pyval) :
  calcular_costo_total (lista catalogo) (lista ventas) errores = (Ret total, errores') ->
  Forall (fun item =>
            forall q p, cuenta catalogo item = Some (q, p) ->
                        exists subtotal redondeado,
                          py_mul q p = Ret subtotal /\
                          py_round2 round_float subtotal = Ret redondeado /\
                          renglon (lista catalogo) (VDict item)
                          = Ret (Some (campo item "Product", q, p, redondeado)))
         ventas.
Proof.
  intros Hrun. rewrite calcular_lista in Hrun.
  apply bucle_total in Hrun as [_ Hfilas]; [| done].
  eapply Forall_impl; [exact Hfilas |].
  intros item Hitem q p Hq. destruct (Hitem q p Hq) as (subtotal & Hmul & Hs).
  destruct (py_round2_total subtotal) as (redondeado & Hround & _);
    [destruct subtotal; try done; by eexists |].
  exists subtotal, redondeado. split; [done |]. split; [done |].
  rewrite renglon_registro. unfold cuenta in Hq.
  destruct (py_truthy (campo item "Product") && py_truthy (campo item "Quantity"));
    [| done].
  destruct (primera_coincidencia catalogo (campo item "Product")) as [entrada |];
    [| done].
  destruct (is_none (campo entrada "price")); [done |].
  injection Hq as <- <-. rewrite Hmul. cbn [obind]. by rewrite Hround.
Qed.

(** X16. A sale with Quantity 0 whose product is in the catalog at an
    integer price is both an error and a row: the reconciliation reports the
    record as lacking a field and adds nothing, and the table still shows
    it, with quantity 0 and subtotal 0. *)
Theorem cantidad_cero_error_y_fila (catalogo : list registro) (item entrada : registro)
    (p : Z) (costo : pyval) (errores : list string) :
  campo item "Quantity" = VInt 0 ->
  primera_coincidencia catalogo (campo item "Product") = Some entrada ->
  campo entrada "price" = VInt p ->
  procesar (lista catalogo) (VDict item) costo errores
  = (Ret costo, errores ++ [msg_sin_campo]) /\
  renglon (lista catalogo) (VDict item)
  = Ret (Some (campo item "Product", VInt 0, VInt p, VInt 0)).
Proof.
  intros Hq Hfirst Hprice. split.
  - apply procesar_error. unfold error_de. rewrite Hq. simpl.
    by rewrite andb_false_r.
  - by rewrite renglon_registro, Hfirst, Hq, Hprice.
Qed.

End TotalAndTable.

(** ** A run of [main] that gets through *)

Section Success.

Context {RT : PyRuntime}.

Lemma print_con_salida (linea : string) (w : world) :
  print linea w = (Ret tt, con_salida w [linea]).
Proof. done. Qed.

Lemma imprimir_errores (errores : list string) (w : world) :
  st_for errores (fun error => print ("* " +:+ error)) w
  = (Ret tt, con_salida w ((fun error => "* " +:+ error) <$> errores)).
Proof.
  revert w. induction errores as [| error resto IH]; intros w.
  - simpl. by rewrite con_salida_nil.
  - cbn [st_for]. unfold st_bind. rewrite print_con_salida, IH.
    by rewrite con_salida_app.
Qed.

Lemma imprimir_tabla (catalogo : pyval) (items : list pyval) (w : world) :
  st_for items (imprimir_fila catalogo) w
  = (match (tabla_consola catalogo items).2 with
     | None => Ret tt
     | Some e => Raise e
     end,
     con_salida w (tabla_consola catalogo items).1).
Proof.
  revert w. induction items as [| item resto IH]; intros w.
  - simpl. by rewrite con_salida_nil.
  - cbn [st_for tabla_consola]. unfold st_bind at 1.
    unfold imprimir_fila at 1, linea_consola, st_bind, st_lift.
    destruct (renglon catalogo item) as [[[[[p q] pr] s] |] | e]; cbn [obind].
    + destruct (fila_consola p q pr s) as [texto | e]; cbn [obind].
      * rewrite print_con_salida, IH.
        destruct (tabla_consola catalogo resto) as [filas e]. simpl.
        by rewrite con_salida_app.
      * simpl. by rewrite con_salida_nil.
    + cbn [st_ret]. rewrite IH.
      by destruct (tabla_consola catalogo resto) as [filas e].
    + simpl. by rewrite con_salida_nil.
Qed.


End Success.

Lemma total_es_numero_ejemplo :
  es_total (VFloat 6) = true /\
  exists redondeado,
    costo_redondeado (RT := rt_ejemplo) (lista catalogo_C) (lista ventas_C) []
    = (Ret redondeado, ["No existe precio para 'Ink'"]) /\
    es_total redondeado = true.
Proof.
  apply (total_es_numero (RT := rt_ejemplo) catalogo_C ventas_C []).
  vm_compute. reflexivity.
Defined.

Lemma registro_contado_calcula_renglon_ejemplo :
  Forall (fun item =>
            forall q p, cuenta catalogo_C item = Some (q, p) ->
                        exists subtotal redondeado,
                          py_mul q p = Ret subtotal /\
                          py_round2 (round_float (PyRuntime := rt_ejemplo)) subtotal
                          = Ret redondeado /\
                          renglon (RT := rt_ejemplo) (lista catalogo_C) (VDict item)
                          = Ret (Some (campo item "Product", q, p, redondeado)))
         ventas_C.
Proof.
  apply (registro_contado_calcula_renglon (RT := rt_ejemplo) catalogo_C ventas_C []
           ["No existe precio para 'Ink'"] (VFloat 6)).
  vm_compute. reflexivity.
Defined.

Lemma cantidad_cero_error_y_fila_ejemplo :
  procesar (RT := rt_ejemplo) (lista catalogo_entero) (VDict venta_cero) (VInt 5) []
  = (Ret (VInt 5), [] ++ [msg_sin_campo]) /\
  renglon (RT := rt_ejemplo) (lista catalogo_entero) (VDict venta_cero)
  = Ret (Some (campo venta_cero "Product", VInt 0, VInt 3, VInt 0)).
Proof.
  apply (cantidad_cero_error_y_fila (RT := rt_ejemplo) catalogo_entero venta_cero
           {[ "title" := VStr "Pen"; "price" := VInt 3 ]}).
  - evaluar.
  - evaluar.
  - evaluar.
Defined.

